(** * XAUUSD trading bot: the decision core of [src/trading_logic.py]

    A shallow embedding of the [TradingBot] class and of
    [run_trading_strategy].  A pandas [DataFrame] is an index (one
    timestamp per bar) with an ordered list of named columns; a float64
    cell is either [NaN] or a finite number, kept as its exact rational
    value (price data has no infinities).  The methods of [TradingBot]
    mutate [self.data] and print; they are written in a small state and
    exception monad over the bot's data and its standard output. *)

From Stdlib Require Import String List ZArith QArith Bool Arith Lia Lqa DecimalString.
Import ListNotations.
Open Scope string_scope.

(** ** Cells, columns, frames and rows *)

Inductive cell : Type :=
| NaN
| Num (q : Q).

Definition column : Type := list cell.

Record DataFrame : Type := mkFrame {
  index : list Z;                       (* timestamps, one per bar *)
  columns : list (string * column)      (* column name, samples by position *)
}.

(** A row of the frame, as [DataFrame.iloc[i]] returns it: a pandas
    Series labelled by the column names. *)
Definition row : Type := list (string * cell).

Definition nrows (d : DataFrame) : nat := length (index d).

(** [DataFrame.empty]: true when either axis has length 0. *)
Definition empty (d : DataFrame) : bool :=
  (nrows d =? 0)%nat || (length (columns d) =? 0)%nat.

Definition row_at (d : DataFrame) (i : nat) : row :=
  map (fun nc => (fst nc, nth i (snd nc) NaN)) (columns d).

Fixpoint lookup {A : Type} (k : string) (l : list (string * A)) : option A :=
  match l with
  | [] => None
  | (k', v) :: t => if String.eqb k k' then Some v else lookup k t
  end.

(** [col in latest]: membership among the labels of a row. *)
Definition has_label {A : Type} (k : string) (l : list (string * A)) : bool :=
  existsb (String.eqb k) (map fst l).

(** ** Comparisons of float cells: any comparison with NaN is false *)

Definition Qlt_bool (a b : Q) : bool := negb (Qle_bool b a).

Definition cell_lt (a b : cell) : bool :=
  match a, b with
  | Num x, Num y => Qlt_bool x y
  | _, _ => false
  end.

Definition cell_le (a b : cell) : bool :=
  match a, b with
  | Num x, Num y => Qle_bool x y
  | _, _ => false
  end.

Definition cell_gt (a b : cell) : bool := cell_lt b a.

(** ** Exceptions, results, output and the bot monad *)

Inductive exn : Type :=
| IndexError
| KeyError (key : string)
| AttributeError
| ValueError (msg : string)
| ProviderError (msg : string).

Inductive Result (A : Type) : Type :=
| Ok (a : A)
| Raise (e : exn).
Arguments Ok {A} a.
Arguments Raise {A} e.

Inductive Signal : Type := BUY | SELL | HOLD.

(** What the program prints.  Lines whose text depends on run-time values
    carry those values instead of their formatting. *)
Inductive event : Type :=
| Line (s : string)
| PrintLatestClose (c : cell)                       (* line 37 *)
| PrintFetchError (e : exn)                         (* line 39 *)
| PrintSignal (price : cell) (s : Signal) (reason : string)   (* line 112 *)
| FinalReport (asset : string) (time : Z) (price : cell)
              (s : Signal) (reason : string).       (* lines 136-142 *)

Record world : Type := mkWorld {
  data : option DataFrame;      (* self.data; None is Python's None *)
  out : list event              (* standard output, oldest first *)
}.

Definition M (A : Type) : Type := world -> Result A * world.

Definition ret {A : Type} (a : A) : M A := fun w => (Ok a, w).

Definition bind {A B : Type} (m : M A) (k : A -> M B) : M B :=
  fun w =>
    match m w with
    | (Ok a, w') => k a w'
    | (Raise e, w') => (Raise e, w')
    end.

Definition raise {A : Type} (e : exn) : M A := fun w => (Raise e, w).

Definition lift {A : Type} (r : Result A) : M A := fun w => (r, w).

Definition get_data : M (option DataFrame) := fun w => (Ok (data w), w).

Definition set_data (d : option DataFrame) : M unit :=
  fun w => (Ok tt, mkWorld d (out w)).

Definition print (e : event) : M unit :=
  fun w => (Ok tt, mkWorld (data w) (out w ++ [e])).

(** [try: body except Exception as e: handler e] *)
Definition try_except {A : Type} (body : M A) (handler : exn -> M A) : M A :=
  fun w =>
    match body w with
    | (Ok a, w') => (Ok a, w')
    | (Raise e, w') => handler e w'
    end.

Declare Scope bot_scope.
Delimit Scope bot_scope with bot.
Notation "x <- m ;; k" := (bind m (fun x => k))
  (at level 100, m at next level, right associativity) : bot_scope.
Notation "m ;;; k" := (bind m (fun _ => k))
  (at level 100, right associativity) : bot_scope.
Open Scope bot_scope.

(** ** Row access *)

(** [self.data.iloc[-k]]: the k-th row from the end, an IndexError when
    the frame has fewer than [k] rows. *)
Definition iloc_neg (d : DataFrame) (k : nat) : Result row :=
  if (k <=? nrows d)%nat then Ok (row_at d (nrows d - k)) else Raise IndexError.

(** [latest['name']]: a KeyError when the label is absent.  The cell is
    that of the one column with this label; a frame in which a label
    repeats (pandas then hands back a Series) is outside this model. *)
Definition getitem (r : row) (k : string) : Result cell :=
  match lookup k r with
  | Some c => Ok c
  | None => Raise (KeyError k)
  end.

(** ** Configuration (lines 9-12) *)

Definition SYMBOL : string := "GC=F".
Definition INTERVAL : string := "1h".
Definition PERIOD : string := "3d".

(** ** generate_signal (lines 67-115) *)

(** The value returned: the pair [('HOLD', None)] of lines 76 and 86, or
    the triple [(signal, latest['Close'], reason)] of line 115. *)
Inductive retval : Type :=
| Ret2 (s : Signal)
| Ret3 (s : Signal) (price : cell) (reason : string).

Definition ret_signal (r : retval) : Signal :=
  match r with
  | Ret2 s => s
  | Ret3 s _ _ => s
  end.

Definition required_cols : list string := ["RSI_14"; "MACD"; "MACD_S"; "SMA_200"].

Definition BUY_REASON : string :=
  "STRONG BUY: Confirmed Uptrend (Price > SMA_200) + MACD Bullish Cross + Healthy RSI (< 70).".
Definition SELL_REASON : string :=
  "SELL: Confirmed Downtrend (Price < SMA_200) + MACD Bearish Signal.".
Definition HOLD_REASON : string :=
  "HOLD: Awaiting clearer trend or momentum signal.".

(** Lines 88-110 once the cells have been read: the four BUY flags, then
    the if / elif / else chain.  Reading a cell cannot fail after the
    column check, except for ['Close'], which the check does not cover. *)
Definition decide (close sma200 macd macd_s rsi pmacd pmacd_s prsi : cell)
  : Signal * string :=
  let is_uptrend := cell_gt close sma200 in
  let is_macd_bullish_cross := cell_gt macd macd_s && cell_le pmacd pmacd_s in
  let is_rsi_rising := cell_gt rsi prsi in
  let is_rsi_safe := cell_lt rsi (Num 70) in
  if is_uptrend && is_macd_bullish_cross && is_rsi_rising && is_rsi_safe
  then (BUY, BUY_REASON)
  else if cell_lt close sma200 && cell_lt macd macd_s && cell_gt rsi (Num 50)
  then (SELL, SELL_REASON)
  else (HOLD, HOLD_REASON).

Definition generate_signal : M retval :=
  d <- get_data ;;
  match d with
  | None => print (Line "Cannot generate signal: Data is missing.") ;;; ret (Ret2 HOLD)
  | Some df =>
    if empty df
    then print (Line "Cannot generate signal: Data is missing.") ;;; ret (Ret2 HOLD)
    else
      latest <- lift (iloc_neg df 1) ;;
      previous <- lift (iloc_neg df 2) ;;
      if negb (forallb (fun c => has_label c latest) required_cols)
      then print (Line "Missing required indicator data: ['RSI_14', 'MACD', 'MACD_S', 'SMA_200']") ;;;
           ret (Ret2 HOLD)
      else
        close <- lift (getitem latest "Close") ;;
        sma200 <- lift (getitem latest "SMA_200") ;;
        macd <- lift (getitem latest "MACD") ;;
        macd_s <- lift (getitem latest "MACD_S") ;;
        pmacd <- lift (getitem previous "MACD") ;;
        pmacd_s <- lift (getitem previous "MACD_S") ;;
        rsi <- lift (getitem latest "RSI_14") ;;
        prsi <- lift (getitem previous "RSI_14") ;;
        let sr := decide close sma200 macd macd_s rsi pmacd pmacd_s prsi in
        print (PrintSignal close (fst sr) (snd sr)) ;;;
        ret (Ret3 (fst sr) close (snd sr))
  end.

(** ** fetch_data (lines 28-40)

    [provider] is what [ticker.history(...)] does on this run: the frame
    it returns, or the exception it raises. *)

Definition EMPTY_MSG : string := "Fetched data is empty. Check symbol and connection.".

(** [self.data['Close'].iloc[-1]] *)
Definition last_close (df : DataFrame) : Result cell :=
  match lookup "Close" (columns df) with
  | None => Raise (KeyError "Close")
  | Some c => if (1 <=? nrows df)%nat then Ok (nth (nrows df - 1) c NaN) else Raise IndexError
  end.

Definition fetch_data (provider : Result DataFrame) : M unit :=
  try_except
    (print (Line "Fetching data...") ;;;
     df <- lift provider ;;
     set_data (Some df) ;;;
     if empty df then raise (ValueError EMPTY_MSG)
     else c <- lift (last_close df) ;; print (PrintLatestClose c))
    (fun e => print (PrintFetchError e) ;;; set_data None).

(** ** The technical-analysis library

    [pandas_ta] is imported, not part of the repository.  A call
    [self.data.ta.f(append=True)] computes the result columns of indicator
    [f] from the frame and assigns each of them to the frame under its
    name; the list is empty when the indicator yields no Series.  The
    library is a parameter of the code below. *)

Definition indicator : Type := DataFrame -> Result (list (string * column)).

Record TALib : Type := mkTA {
  ta_rsi : indicator;
  ta_macd : indicator;
  ta_sma : nat -> indicator
}.

(** [df[name] = c]: overwrite the column of that name, or add it last. *)
Fixpoint set_column (name : string) (c : column) (cols : list (string * column))
  : list (string * column) :=
  match cols with
  | [] => [(name, c)]
  | (n, old) :: t =>
    if String.eqb name n then (n, c) :: t else (n, old) :: set_column name c t
  end.

Definition ta_append (df : DataFrame) (res : list (string * column)) : DataFrame :=
  mkFrame (index df)
          (fold_left (fun acc nc => set_column (fst nc) (snd nc) acc) res (columns df)).

(** One accessor call with [append=True]: the frame held by the bot is
    updated in place. *)
Definition ta_apply (f : indicator) (df : DataFrame) : M DataFrame :=
  res <- lift (f df) ;;
  let df' := ta_append df res in
  set_data (Some df') ;;; ret df'.

(** [DataFrame.rename(columns=mapping)] *)
Definition rename (mapping : list (string * string)) (df : DataFrame) : DataFrame :=
  mkFrame (index df)
          (map (fun nc => (match lookup (fst nc) mapping with
                           | Some n' => n'
                           | None => fst nc
                           end, snd nc)) (columns df)).

Definition macd_renames : list (string * string) :=
  [("MACD_12_26_9", "MACD"); ("MACDH_12_26_9", "MACD_H"); ("MACDS_12_26_9", "MACD_S")].

(** ** calculate_indicators (lines 42-65) *)

Definition calculate_indicators (ta : TALib) : M unit :=
  d <- get_data ;;
  match d with
  | None => ret tt
  | Some df =>
    if empty df then ret tt
    else
      print (Line "Calculating technical indicators...") ;;;
      df1 <- ta_apply (ta_rsi ta) df ;;
      df2 <- ta_apply (ta_macd ta) df1 ;;
      df3 <- ta_apply (ta_sma ta 50) df2 ;;
      df4 <- ta_apply (ta_sma ta 200) df3 ;;
      set_data (Some (rename macd_renames df4))
  end.

(** ** run_trading_strategy (lines 119-142) *)

(** [TradingBot(SYMBOL, INTERVAL, PERIOD)]: the bot starts with an empty
    frame. *)
Definition TradingBot_init : M unit :=
  set_data (Some (mkFrame [] [])) ;;;
  print (Line "Initialized TradingBot for GC=F (1h interval).").

Definition UNPACK_MSG : string := "not enough values to unpack (expected 3, got 2)".

(** [bot.data.index[-1]] *)
Definition last_index : M Z :=
  d <- get_data ;;
  match d with
  | None => raise AttributeError
  | Some df =>
    match rev (index df) with
    | [] => raise IndexError
    | t :: _ => ret t
    end
  end.

Definition EXIT_MSG : string := "Exiting due to data fetching failure.".
Definition START_MSG : string := "--- Trading Logic Execution Start ---".

(** Lines 131-142: the result of generate_signal is unpacked into three
    names, then the report is printed. *)
Definition report (r : retval) : M unit :=
  match r with
  | Ret2 _ => raise (ValueError UNPACK_MSG)
  | Ret3 signal price reason =>
    time <- last_index ;;
    print (FinalReport SYMBOL time price signal reason)
  end.

(** [bot.data is None or bot.data.empty] *)
Definition no_data (d : option DataFrame) : bool :=
  match d with
  | None => true
  | Some df => empty df
  end.

(** The start banner carries the wall-clock time, which is left out. *)
Definition run_trading_strategy (ta : TALib) (provider : Result DataFrame) : M unit :=
  print (Line START_MSG) ;;;
  TradingBot_init ;;;
  fetch_data provider ;;;
  d <- get_data ;;
  if no_data d then print (Line EXIT_MSG)
  else
    calculate_indicators ta ;;;
    r <- generate_signal ;;
    report r.

(** ** The indicators as the specification describes them

    The arithmetic is exact (rational); a column is undefined (NaN) on
    the warm-up positions of its window. *)

Module SpecTA.

Definition Qsum (l : list Q) : Q := fold_right Qplus 0 l.

Definition mean (l : list Q) : Q := Qsum l / inject_Z (Z.of_nat (length l)).

Fixpoint zip_with (f : Q -> Q -> Q) (a b : list Q) : list Q :=
  match a, b with
  | x :: a', y :: b' => f x y :: zip_with f a' b'
  | _, _ => []
  end.

(** A column of [rows] positions: [warm] undefined positions, then the
    defined values. *)
Definition align (rows warm : nat) (vals : list Q) : column :=
  firstn rows (repeat NaN warm ++ map Num vals).

(** Modelled from the spec: [pandas_ta]'s SMA is not in the repository.
    Section 4.1: unweighted mean of close over the trailing window,
    undefined until the window is full.  [sma_vals n l] lists the means
    from position [n - 1] on. *)
Fixpoint sma_vals (n : nat) (l : list Q) : list Q :=
  match l with
  | [] => []
  | _ :: t => if (n <=? length l)%nat then mean (firstn n l) :: sma_vals n t else []
  end.

Definition sma_column (n rows : nat) (closes : list Q) : column :=
  align rows (n - 1) (sma_vals n closes).

(** Modelled from the spec: [pandas_ta]'s EMA is not in the repository.
    Section 4.1: exponential smoothing with factor 2/(N+1), seeded by the
    simple average of the first N values. *)
Fixpoint ema_run (alpha prev : Q) (l : list Q) : list Q :=
  match l with
  | [] => []
  | x :: t => let e := alpha * x + (1 - alpha) * prev in e :: ema_run alpha e t
  end.

Definition ema_vals (n : nat) (l : list Q) : list Q :=
  if (n <=? length l)%nat
  then let seed := mean (firstn n l) in
       seed :: ema_run (2 / inject_Z (Z.of_nat (n + 1))) seed (skipn n l)
  else [].

(** Modelled from the spec: [pandas_ta]'s MACD is not in the repository.
    Section 4.1: MACD = EMA(close,12) - EMA(close,26), first defined at
    the 26th position; signal = EMA(MACD,9), first defined at the 34th;
    histogram = MACD - signal. *)
Definition macd_vals (closes : list Q) : list Q :=
  zip_with Qminus (skipn 14 (ema_vals 12 closes)) (ema_vals 26 closes).

Definition signal_vals (closes : list Q) : list Q := ema_vals 9 (macd_vals closes).

Definition hist_vals (closes : list Q) : list Q :=
  zip_with Qminus (skipn 8 (macd_vals closes)) (signal_vals closes).

(** Modelled from the spec: [pandas_ta]'s RSI is not in the repository.
    Section 4.1: Wilder smoothing over 14 periods of the average gain and
    the average loss of the close-to-close deltas; undefined for the
    first 14 positions; 100 when the average loss is exactly zero. *)
Fixpoint deltas (prev : Q) (l : list Q) : list Q :=
  match l with
  | [] => []
  | x :: t => (x - prev) :: deltas x t
  end.

Definition diffs (l : list Q) : list Q :=
  match l with
  | [] => []
  | x :: t => deltas x t
  end.

Definition gain (d : Q) : Q := if Qle_bool 0 d then d else 0.
Definition loss (d : Q) : Q := if Qle_bool 0 d then 0 else - d.

Fixpoint wilder_run (n prev : Q) (l : list Q) : list Q :=
  match l with
  | [] => []
  | x :: t => let a := (prev * (n - 1) + x) / n in a :: wilder_run n a t
  end.

Definition wilder_vals (n : nat) (l : list Q) : list Q :=
  if (n <=? length l)%nat
  then let seed := mean (firstn n l) in
       seed :: wilder_run (inject_Z (Z.of_nat n)) seed (skipn n l)
  else [].

Definition avg_gain_vals (closes : list Q) : list Q :=
  wilder_vals 14 (map gain (diffs closes)).

Definition avg_loss_vals (closes : list Q) : list Q :=
  wilder_vals 14 (map loss (diffs closes)).

Definition rsi_value (avg_gain avg_loss : Q) : Q :=
  if Qeq_bool avg_loss 0 then 100
  else 100 - 100 / (1 + avg_gain / avg_loss).

Definition rsi_vals (closes : list Q) : list Q :=
  zip_with rsi_value (avg_gain_vals closes) (avg_loss_vals closes).

Definition rsi_column (rows : nat) (closes : list Q) : column :=
  align rows 14 (rsi_vals closes).

(** The close prices of a frame.  Section 4.3 has non-finite prices
    rejected before any indicator is computed. *)
Fixpoint finite_values (c : column) : option (list Q) :=
  match c with
  | [] => Some []
  | NaN :: _ => None
  | Num q :: t => option_map (cons q) (finite_values t)
  end.

Definition close_series (df : DataFrame) : Result (list Q) :=
  match lookup "Close" (columns df) with
  | None => Raise (KeyError "Close")
  | Some c =>
    match finite_values c with
    | None => Raise (ValueError "non-finite close")
    | Some l => Ok l
    end
  end.

Definition with_closes (f : nat -> list Q -> list (string * column)) : indicator :=
  fun df =>
    match close_series df with
    | Ok l => Ok (f (nrows df) l)
    | Raise e => Raise e
    end.

Definition nat_to_string (n : nat) : string := NilEmpty.string_of_uint (Nat.to_uint n).

Definition rsi : indicator :=
  with_closes (fun rows l => [("RSI_14", rsi_column rows l)]).

Definition macd : indicator :=
  with_closes (fun rows l =>
    [("MACD_12_26_9", align rows 25 (macd_vals l));
     ("MACDH_12_26_9", align rows 33 (hist_vals l));
     ("MACDS_12_26_9", align rows 33 (signal_vals l))]).

Definition sma (n : nat) : indicator :=
  with_closes (fun rows l => [("SMA_" ++ nat_to_string n, sma_column n rows l)]).

Definition lib : TALib := mkTA rsi macd sma.

End SpecTA.

(** ** Sample data *)

Definition qcol (l : list Z) : column := map (fun z => Num (inject_Z z)) l.

Definition ohlc (closes : list Z) : DataFrame :=
  mkFrame (map Z.of_nat (seq 0 (length closes)))
          [("Open", qcol closes); ("High", qcol closes);
           ("Low", qcol closes); ("Close", qcol closes)].

Definition start (d : option DataFrame) : world := mkWorld d [].

(** ** Views of the data used in the statements *)

Definition latest (df : DataFrame) : row := row_at df (nrows df - 1).
Definition previous (df : DataFrame) : row := row_at df (nrows df - 2).

Definition cell_of (r : row) (k : string) : cell :=
  match lookup k r with
  | Some c => c
  | None => NaN
  end.

Definition verdict (df : DataFrame) : Signal * string :=
  decide (cell_of (latest df) "Close") (cell_of (latest df) "SMA_200")
         (cell_of (latest df) "MACD") (cell_of (latest df) "MACD_S")
         (cell_of (latest df) "RSI_14")
         (cell_of (previous df) "MACD") (cell_of (previous df) "MACD_S")
         (cell_of (previous df) "RSI_14").

Definition has_required (df : DataFrame) : bool :=
  forallb (fun c => has_label c (columns df)) required_cols.

Definition signal_of (r : Result retval * world) : option Signal :=
  match fst r with
  | Ok v => Some (ret_signal v)
  | Raise _ => None
  end.

(** The cells that lines 89-105 read, when they are all there. *)
Record reads (df : DataFrame) (close sma200 macd macd_s rsi pmacd pmacd_s prsi : cell)
  : Prop := mkReads {
  rd_rows : (2 <= nrows df)%nat;
  rd_close : lookup "Close" (latest df) = Some close;
  rd_sma200 : lookup "SMA_200" (latest df) = Some sma200;
  rd_macd : lookup "MACD" (latest df) = Some macd;
  rd_macd_s : lookup "MACD_S" (latest df) = Some macd_s;
  rd_rsi : lookup "RSI_14" (latest df) = Some rsi;
  rd_pmacd : lookup "MACD" (previous df) = Some pmacd;
  rd_pmacd_s : lookup "MACD_S" (previous df) = Some pmacd_s;
  rd_prsi : lookup "RSI_14" (previous df) = Some prsi
}.

Definition buy_cond (close sma200 macd macd_s rsi pmacd pmacd_s prsi : cell) : bool :=
  cell_gt close sma200 && (cell_gt macd macd_s && cell_le pmacd pmacd_s)
  && cell_gt rsi prsi && cell_lt rsi (Num 70).

Definition sell_cond (close sma200 macd macd_s rsi : cell) : bool :=
  cell_lt close sma200 && cell_lt macd macd_s && cell_gt rsi (Num 50).

Definition indicator_frame
    (close sma200 macd macd_s rsi : cell * cell) : DataFrame :=
  let two (p : cell * cell) : column := [fst p; snd p] in
  mkFrame [0%Z; 3600%Z]
          [("Close", two close); ("RSI_14", two rsi); ("MACD", two macd);
           ("MACD_S", two macd_s); ("SMA_200", two sma200)].

(* previous row first, latest row second *)
Definition buy_frame : DataFrame :=
  indicator_frame (Num 104, Num 105) (Num 100, Num 100) (Num (-1), Num 2)
                  (Num 0, Num 1) (Num 55, Num 60).

Definition sell_frame : DataFrame :=
  indicator_frame (Num 96, Num 95) (Num 100, Num 100) (Num (-1), Num (-2))
                  (Num 0, Num (-1)) (Num 58, Num 55).

Definition warmup_frame : DataFrame :=
  indicator_frame (Num 104, Num 105) (NaN, NaN) (Num (-1), Num 2)
                  (Num 0, Num 1) (Num 55, Num 60).


(** Two bars with every required column present and still NaN. *)
Definition nan_frame : DataFrame :=
  indicator_frame (Num 100, Num 101) (NaN, NaN) (NaN, NaN) (NaN, NaN) (NaN, NaN).

Definition NO_HISTORY : string := "insufficient indicator history".

(** ** Observations on a run *)

Definition is_report (e : event) : bool :=
  match e with
  | FinalReport _ _ _ _ _ => true
  | _ => false
  end.

(** Whether a Decision reached the reporting sink. *)
Definition reported (o : list event) : bool := existsb is_report o.

(** The part of the run before the data check of line 126. *)
Definition prelude (provider : Result DataFrame) : M unit :=
  print (Line START_MSG) ;;; TradingBot_init ;;; fetch_data provider.

(** What fetch_data leaves in [self.data]. *)
Definition fetched (provider : Result DataFrame) : option DataFrame :=
  match provider with
  | Raise _ => None
  | Ok df =>
    if empty df then None
    else match last_close df with
         | Ok _ => Some df
         | Raise _ => None
         end
  end.

(** The guards of generate_signal that lead to a pair (lines 74 and 84). *)
Definition two_tuple_path (w : world) : bool :=
  match data w with
  | None => true
  | Some df => empty df || negb (has_required df)
  end.

Definition exited (rw : Result unit * world) : Prop :=
  fst rw = Ok tt /\ exists o : list event, out (snd rw) = (o ++ [Line EXIT_MSG])%list.

Definition crashed (rw : Result unit * world) : Prop :=
  exists e, fst rw = Raise e.

(** A library none of whose indicators yields a Series. *)
Definition silent_ta : TALib :=
  mkTA (fun _ => Ok []) (fun _ => Ok []) (fun _ _ => Ok []).

(** ** Names of the columns *)


(** The names under which the library delivers its results, as the
    rename of lines 61-65 and the reads of generate_signal expect them. *)
Definition engine_names : list string :=
  ["RSI_14"; "MACD_12_26_9"; "MACDH_12_26_9"; "MACDS_12_26_9"; "SMA_50"; "SMA_200"].

Definition derived_names : list string :=
  ["RSI_14"; "MACD"; "MACD_S"; "MACD_H"; "SMA_50"; "SMA_200"].


Definition renamed (m : list (string * string)) (k : string) : string :=
  match lookup k m with
  | Some k' => k'
  | None => k
  end.

(** The frame calculate_indicators leaves when the library is the one of
    the specification. *)
Definition spec_results (df : DataFrame) (closes : list Q)
  : list (list (string * column)) :=
  let n := nrows df in
  [[("RSI_14", SpecTA.rsi_column n closes)];
   [("MACD_12_26_9", SpecTA.align n 25 (SpecTA.macd_vals closes));
    ("MACDH_12_26_9", SpecTA.align n 33 (SpecTA.hist_vals closes));
    ("MACDS_12_26_9", SpecTA.align n 33 (SpecTA.signal_vals closes))];
   [("SMA_50", SpecTA.sma_column 50 n closes)];
   [("SMA_200", SpecTA.sma_column 200 n closes)]].

Definition spec_enriched (df : DataFrame) (closes : list Q) : DataFrame :=
  rename macd_renames (fold_left ta_append (spec_results df closes) df).

Definition CALC_MSG : string := "Calculating technical indicators...".

(** Eighteen hourly bars. *)
Definition sample_closes : list Z :=
  [100; 101; 102; 101; 103; 104; 105; 104; 106; 107; 108; 107; 109; 110;
   111; 112; 113; 114]%Z.

(** ** More sample frames *)

(** Indicator columns without a Close column. *)
Definition no_close_frame : DataFrame :=
  mkFrame [0%Z; 3600%Z]
          [("RSI_14", [Num 55; Num 60]); ("MACD", [Num (-1); Num 2]);
           ("MACD_S", [Num 0; Num 1]); ("SMA_200", [Num 100; Num 100])].

(** The bar after [buy_frame]: its previous row is the latest row of
    [buy_frame]. *)
Definition after_buy_frame : DataFrame :=
  indicator_frame (Num 105, Num 106) (Num 100, Num 100) (Num 2, Num 3)
                  (Num 1, Num 2) (Num 60, Num 62).

(** [buy_frame] with older history in front of its two bars. *)
Definition long_buy_frame : DataFrame :=
  mkFrame [(-3600)%Z; 0%Z; 3600%Z]
          [("Close", [Num 90; Num 104; Num 105]);
           ("RSI_14", [NaN; Num 55; Num 60]);
           ("MACD", [NaN; Num (-1); Num 2]);
           ("MACD_S", [NaN; Num 0; Num 1]);
           ("SMA_200", [NaN; Num 100; Num 100])].

(** The signal and reason pairs of lines 102-110. *)
Definition verdicts : list (Signal * string) :=
  [(BUY, BUY_REASON); (SELL, SELL_REASON); (HOLD, HOLD_REASON)].

(** A library all of whose indicators raise. *)
Definition failing_ta : TALib :=
  mkTA (fun _ => Raise (ValueError "ta")) (fun _ => Raise (ValueError "ta"))
       (fun _ _ => Raise (ValueError "ta")).

Definition NO_DATA_MSG : string := "Cannot generate signal: Data is missing.".

(** ** Frames before enrichment, and what the consumer shows *)

(** No column of the frame bears a name that calculate_indicators writes
    or renames. *)
Definition fresh (df : DataFrame) : Prop :=
  forall k, In k (engine_names ++ derived_names) -> has_label k (columns df) = false.





(** Every column label of the frame occurs once. *)
Definition distinct_labels (d : option DataFrame) : Prop :=
  match d with
  | None => True
  | Some df => NoDup (map fst (columns df))
  end.

(** * Properties *)

(** ** Comparisons *)

Lemma Qlt_bool_iff (a b : Q) : Qlt_bool a b = true <-> a < b.
Proof.
  unfold Qlt_bool. rewrite negb_true_iff. split; intro H.
  - apply Qnot_le_lt. intro Hle. apply Qle_bool_iff in Hle. congruence.
  - destruct (Qle_bool b a) eqn:E; [|reflexivity].
    apply Qle_bool_iff in E. exfalso. exact (Qlt_not_le _ _ H E).
Qed.

Lemma cell_lt_Num (a b : Q) : cell_lt (Num a) (Num b) = true <-> a < b.
Proof. apply Qlt_bool_iff. Qed.

Lemma cell_le_Num (a b : Q) : cell_le (Num a) (Num b) = true <-> a <= b.
Proof. apply Qle_bool_iff. Qed.

Lemma cell_lt_NaN_l (b : cell) : cell_lt NaN b = false.
Proof. reflexivity. Qed.

Lemma cell_lt_NaN_r (a : cell) : cell_lt a NaN = false.
Proof. destruct a; reflexivity. Qed.

Lemma cell_lt_asym (a b : cell) : cell_lt a b = true -> cell_lt b a = false.
Proof.
  destruct a as [|x], b as [|y]; simpl; try discriminate; intro H.
  apply Qlt_bool_iff in H. destruct (Qlt_bool y x) eqn:E; [|reflexivity].
  apply Qlt_bool_iff in E. exfalso. exact (Qlt_irrefl _ (Qlt_trans _ _ _ H E)).
Qed.

(** ** Labels and lookups *)

Lemma has_label_lookup {A : Type} (k : string) (l : list (string * A)) :
  has_label k l = match lookup k l with Some _ => true | None => false end.
Proof.
  unfold has_label. induction l as [|[k' v] t IH]; simpl; [reflexivity|].
  destruct (String.eqb k k'); simpl; [reflexivity|exact IH].
Qed.

Lemma lookup_row_at (k : string) (df : DataFrame) (i : nat) :
  lookup k (row_at df i) = option_map (fun c => nth i c NaN) (lookup k (columns df)).
Proof.
  unfold row_at. induction (columns df) as [|[k' c] t IH]; simpl; [reflexivity|].
  destruct (String.eqb k k'); simpl; [reflexivity|exact IH].
Qed.

Lemma has_label_row_at (k : string) (df : DataFrame) (i : nat) :
  has_label k (row_at df i) = has_label k (columns df).
Proof.
  rewrite !has_label_lookup, lookup_row_at.
  destruct (lookup k (columns df)); reflexivity.
Qed.

(** ** generate_signal on a frame that passes its guards *)

Lemma getitem_present (df : DataFrame) (i : nat) (k : string) :
  has_label k (columns df) = true ->
  getitem (row_at df i) k = Ok (cell_of (row_at df i) k).
Proof.
  intro H. unfold getitem, cell_of.
  rewrite <- (has_label_row_at k df i), has_label_lookup in H.
  destruct (lookup k (row_at df i)); [reflexivity|discriminate].
Qed.

Lemma nonempty_frame (df : DataFrame) (k : string) :
  (1 <= nrows df)%nat -> has_label k (columns df) = true -> empty df = false.
Proof.
  intros Hn Hk. unfold empty. apply orb_false_iff. split.
  - apply Nat.eqb_neq. lia.
  - destruct (columns df); [discriminate|reflexivity].
Qed.

Lemma required_row (df : DataFrame) (i : nat) :
  forallb (fun c => has_label c (row_at df i)) required_cols = has_required df.
Proof.
  unfold has_required, required_cols. simpl. rewrite !has_label_row_at. reflexivity.
Qed.

Lemma generate_signal_ready (df : DataFrame) (o : list event) :
  (2 <= nrows df)%nat ->
  has_label "Close" (columns df) = true ->
  has_required df = true ->
  generate_signal (mkWorld (Some df) o) =
  (Ok (Ret3 (fst (verdict df)) (cell_of (latest df) "Close") (snd (verdict df))),
   mkWorld (Some df)
           (o ++ [PrintSignal (cell_of (latest df) "Close")
                              (fst (verdict df)) (snd (verdict df))])).
Proof.
  intros Hn Hc Hr.
  assert (He : empty df = false) by (apply (nonempty_frame df "Close"); [lia|exact Hc]).
  assert (H1 : iloc_neg df 1 = Ok (latest df)).
  { unfold iloc_neg, latest. destruct (Nat.leb_spec 1 (nrows df)); [reflexivity|lia]. }
  assert (H2 : iloc_neg df 2 = Ok (previous df)).
  { unfold iloc_neg, previous. destruct (Nat.leb_spec 2 (nrows df)); [reflexivity|lia]. }
  pose proof Hr as Hr'. unfold has_required, required_cols in Hr'. simpl in Hr'.
  repeat (apply andb_prop in Hr'; destruct Hr' as [? Hr']).
  unfold generate_signal, bind, get_data, lift. cbn [data].
  rewrite He, H1, H2. unfold latest at 1. rewrite required_row, Hr.
  cbn [negb]. unfold latest, previous, verdict.
  rewrite !getitem_present by assumption. reflexivity.
Qed.

Lemma lookup_latest_label (df : DataFrame) (i : nat) (k : string) (c : cell) :
  lookup k (row_at df i) = Some c -> has_label k (columns df) = true.
Proof.
  intro H. rewrite <- (has_label_row_at k df i), has_label_lookup, H. reflexivity.
Qed.

Lemma cell_of_lookup (r : row) (k : string) (c : cell) :
  lookup k r = Some c -> cell_of r k = c.
Proof. intro H. unfold cell_of. rewrite H. reflexivity. Qed.

Lemma generate_signal_reads (df : DataFrame) (o : list event)
    (close sma200 macd macd_s rsi pmacd pmacd_s prsi : cell) :
  reads df close sma200 macd macd_s rsi pmacd pmacd_s prsi ->
  let sr := decide close sma200 macd macd_s rsi pmacd pmacd_s prsi in
  generate_signal (mkWorld (Some df) o) =
  (Ok (Ret3 (fst sr) close (snd sr)),
   mkWorld (Some df) (o ++ [PrintSignal close (fst sr) (snd sr)])).
Proof.
  intros [Hn Hc Hs Hm Hms Hr Hpm Hpms Hpr]. cbv zeta.
  rewrite generate_signal_ready.
  - unfold verdict.
    rewrite (cell_of_lookup _ _ _ Hc), (cell_of_lookup _ _ _ Hs),
      (cell_of_lookup _ _ _ Hm), (cell_of_lookup _ _ _ Hms),
      (cell_of_lookup _ _ _ Hr), (cell_of_lookup _ _ _ Hpm),
      (cell_of_lookup _ _ _ Hpms), (cell_of_lookup _ _ _ Hpr).
    reflexivity.
  - exact Hn.
  - exact (lookup_latest_label _ _ _ _ Hc).
  - unfold has_required, required_cols. simpl.
    rewrite (lookup_latest_label _ _ _ _ Hs), (lookup_latest_label _ _ _ _ Hm),
      (lookup_latest_label _ _ _ _ Hms), (lookup_latest_label _ _ _ _ Hr).
    reflexivity.
Qed.

(** ** The decision rule *)

Lemma decide_cases (close sma200 macd macd_s rsi pmacd pmacd_s prsi : cell) :
  decide close sma200 macd macd_s rsi pmacd pmacd_s prsi =
  if buy_cond close sma200 macd macd_s rsi pmacd pmacd_s prsi then (BUY, BUY_REASON)
  else if sell_cond close sma200 macd macd_s rsi then (SELL, SELL_REASON)
  else (HOLD, HOLD_REASON).
Proof. reflexivity. Qed.

Lemma buy_sell_exclusive (close sma200 macd macd_s rsi pmacd pmacd_s prsi : cell) :
  buy_cond close sma200 macd macd_s rsi pmacd pmacd_s prsi = true ->
  sell_cond close sma200 macd macd_s rsi = false.
Proof.
  unfold buy_cond, sell_cond, cell_gt. intro H.
  repeat (apply andb_prop in H; destruct H as [H ?]).
  rewrite (cell_lt_asym _ _ H). reflexivity.
Qed.

Lemma buy_cond_Num (close sma macd sig rsi pmacd psig prsi : Q) :
  buy_cond (Num close) (Num sma) (Num macd) (Num sig) (Num rsi)
           (Num pmacd) (Num psig) (Num prsi) = true <->
  sma < close /\ (sig < macd /\ pmacd <= psig) /\ prsi < rsi /\ rsi < 70.
Proof.
  unfold buy_cond, cell_gt.
  rewrite !andb_true_iff, !cell_lt_Num, cell_le_Num. tauto.
Qed.

Lemma sell_cond_Num (close sma macd sig rsi : Q) :
  sell_cond (Num close) (Num sma) (Num macd) (Num sig) (Num rsi) = true <->
  close < sma /\ macd < sig /\ 50 < rsi.
Proof.
  unfold sell_cond, cell_gt.
  rewrite !andb_true_iff, !cell_lt_Num. tauto.
Qed.

Lemma nan_blocks_both (close sma200 macd macd_s rsi pmacd pmacd_s prsi : cell) :
  sma200 = NaN \/ macd = NaN \/ macd_s = NaN \/ rsi = NaN ->
  buy_cond close sma200 macd macd_s rsi pmacd pmacd_s prsi = false /\
  sell_cond close sma200 macd macd_s rsi = false.
Proof.
  unfold buy_cond, sell_cond, cell_gt.
  intros [H|[H|[H|H]]]; subst;
    rewrite ?cell_lt_NaN_l, ?cell_lt_NaN_r, ?andb_false_r; simpl;
    rewrite ?andb_false_r; split; reflexivity.
Qed.

(** ** The claims on generate_signal *)

(** C1. On a frame with at least two bars whose latest and previous rows
    hold defined values, generate_signal returns BUY exactly when the
    close is above SMA_200, MACD is above its signal line on the latest
    bar and was at or below it on the previous bar, RSI_14 rose, and
    RSI_14 is below 70. *)
Theorem generate_signal_buy_iff (df : DataFrame) (o : list event)
    (close sma macd sig rsi pmacd psig prsi : Q) :
  reads df (Num close) (Num sma) (Num macd) (Num sig) (Num rsi)
        (Num pmacd) (Num psig) (Num prsi) ->
  signal_of (generate_signal (mkWorld (Some df) o)) = Some BUY <->
  (sma < close /\ (sig < macd /\ pmacd <= psig) /\ prsi < rsi /\ rsi < 70).
Proof.
  intro Hr. rewrite (generate_signal_reads _ o _ _ _ _ _ _ _ _ Hr).
  unfold signal_of. cbn [fst ret_signal]. rewrite decide_cases, <- buy_cond_Num.
  destruct (buy_cond _ _ _ _ _ _ _ _); [|destruct (sell_cond _ _ _ _ _)];
    cbn [fst]; split; intro H; try reflexivity; try discriminate.
Qed.

Lemma generate_signal_buy_iff_witness :
  signal_of (generate_signal (start (Some buy_frame))) = Some BUY <->
  (100 < 105 /\ (1 < 2 /\ -1 <= 0) /\ 55 < 60 /\ 60 < 70).
Proof.
  apply (generate_signal_buy_iff buy_frame [] 105 100 2 1 60 (-1) 0 55).
  constructor; [cbv; lia | reflexivity ..].
Defined.

(** C2. On such a frame generate_signal returns SELL exactly when the BUY
    conditions do not all hold and the close is below SMA_200, MACD is
    below its signal line and RSI_14 is above 50 (no crossover is asked
    for); in every remaining case it returns HOLD. *)
Theorem generate_signal_sell_hold_iff (df : DataFrame) (o : list event)
    (close sma macd sig rsi pmacd psig prsi : Q) :
  reads df (Num close) (Num sma) (Num macd) (Num sig) (Num rsi)
        (Num pmacd) (Num psig) (Num prsi) ->
  let buy := sma < close /\ (sig < macd /\ pmacd <= psig) /\ prsi < rsi /\ rsi < 70 in
  let sell := close < sma /\ macd < sig /\ 50 < rsi in
  (signal_of (generate_signal (mkWorld (Some df) o)) = Some SELL <-> ~ buy /\ sell) /\
  (signal_of (generate_signal (mkWorld (Some df) o)) = Some HOLD <-> ~ buy /\ ~ sell).
Proof.
  intro Hr. cbv zeta. rewrite (generate_signal_reads _ o _ _ _ _ _ _ _ _ Hr).
  unfold signal_of. cbn [fst ret_signal].
  rewrite decide_cases, <- buy_cond_Num, <- sell_cond_Num.
  destruct (buy_cond _ _ _ _ _ _ _ _); [|destruct (sell_cond _ _ _ _ _)];
    cbn [fst]; repeat split; intros; try discriminate; try tauto;
    intuition discriminate.
Qed.

Lemma generate_signal_sell_hold_iff_witness :
  signal_of (generate_signal (start (Some sell_frame))) = Some SELL.
Proof.
  apply (generate_signal_sell_hold_iff sell_frame [] 95 100 (-2) (-1) 55 (-1) 0 58).
  - constructor; [cbv; lia | reflexivity ..].
  - split.
    + intros [H _]. revert H. apply Qle_not_lt. discriminate.
    + repeat split; reflexivity.
Defined.

(** C3. The BUY branch comes first: whenever the BUY conditions hold on
    the cells read, defined or not, generate_signal returns BUY, whatever
    the SELL conditions are; and the two sets never hold together, the
    close being above SMA_200 in one and below it in the other. *)
Theorem generate_signal_buy_priority (df : DataFrame) (o : list event)
    (close sma200 macd macd_s rsi pmacd pmacd_s prsi : cell) :
  reads df close sma200 macd macd_s rsi pmacd pmacd_s prsi ->
  buy_cond close sma200 macd macd_s rsi pmacd pmacd_s prsi = true ->
  fst (generate_signal (mkWorld (Some df) o)) = Ok (Ret3 BUY close BUY_REASON) /\
  sell_cond close sma200 macd macd_s rsi = false.
Proof.
  intros Hr Hb. split.
  - rewrite (generate_signal_reads _ o _ _ _ _ _ _ _ _ Hr).
    cbn [fst]. rewrite decide_cases, Hb. reflexivity.
  - exact (buy_sell_exclusive _ _ _ _ _ _ _ _ Hb).
Qed.

Lemma generate_signal_buy_priority_witness :
  fst (generate_signal (start (Some buy_frame))) = Ok (Ret3 BUY (Num 105) BUY_REASON) /\
  sell_cond (Num 105) (Num 100) (Num 2) (Num 1) (Num 60) = false.
Proof.
  apply (generate_signal_buy_priority buy_frame [] (Num 105) (Num 100) (Num 2) (Num 1)
           (Num 60) (Num (-1)) (Num 0) (Num 55)).
  - constructor; [cbv; lia | reflexivity ..].
  - reflexivity.
Defined.

(** C9. When the required columns exist and the latest SMA_200, MACD,
    MACD_S or RSI_14 is NaN, the BUY guard and the SELL guard are both
    false and generate_signal returns HOLD, never BUY or SELL. *)
Theorem generate_signal_nan_safe (df : DataFrame) (o : list event)
    (close sma200 macd macd_s rsi pmacd pmacd_s prsi : cell) :
  reads df close sma200 macd macd_s rsi pmacd pmacd_s prsi ->
  sma200 = NaN \/ macd = NaN \/ macd_s = NaN \/ rsi = NaN ->
  buy_cond close sma200 macd macd_s rsi pmacd pmacd_s prsi = false /\
  sell_cond close sma200 macd macd_s rsi = false /\
  fst (generate_signal (mkWorld (Some df) o)) = Ok (Ret3 HOLD close HOLD_REASON).
Proof.
  intros Hr Hnan.
  destruct (nan_blocks_both close sma200 macd macd_s rsi pmacd pmacd_s prsi Hnan)
    as [Hb Hs].
  repeat split; try assumption.
  rewrite (generate_signal_reads _ o _ _ _ _ _ _ _ _ Hr).
  cbn [fst]. rewrite decide_cases, Hb, Hs. reflexivity.
Qed.

Lemma generate_signal_nan_safe_witness :
  fst (generate_signal (start (Some warmup_frame))) = Ok (Ret3 HOLD (Num 105) HOLD_REASON).
Proof.
  apply (generate_signal_nan_safe warmup_frame [] (Num 105) NaN (Num 2) (Num 1)
           (Num 60) (Num (-1)) (Num 0) (Num 55)).
  - constructor; [cbv; lia | reflexivity ..].
  - left. reflexivity.
Defined.

(** ** The paths of generate_signal that return the pair *)

Lemma generate_signal_no_data (w : world) :
  match data w with None => true | Some df => empty df end = true ->
  generate_signal w =
  (Ok (Ret2 HOLD),
   mkWorld (data w) (out w ++ [Line "Cannot generate signal: Data is missing."])).
Proof.
  intro H. unfold generate_signal, bind, get_data, print, ret.
  destruct w as [[df|] o]; cbn [data out] in *; [rewrite H|]; reflexivity.
Qed.

Lemma generate_signal_absent (df : DataFrame) (o : list event) :
  (2 <= nrows df)%nat ->
  has_required df = false ->
  fst (generate_signal (mkWorld (Some df) o)) = Ok (Ret2 HOLD).
Proof.
  intros Hn Hr. destruct (empty df) eqn:He.
  - rewrite generate_signal_no_data; [reflexivity|exact He].
  - unfold generate_signal, bind, get_data, lift, iloc_neg. cbn [data].
    rewrite He.
    destruct (Nat.leb_spec 1 (nrows df)); [|lia].
    destruct (Nat.leb_spec 2 (nrows df)); [|lia].
    rewrite required_row, Hr. reflexivity.
Qed.

(** C4 (amended). On a frame with at least two bars and a Close column
    whose latest row lacks RSI_14, MACD, MACD_S or SMA_200, by an absent
    column or by a NaN, generate_signal raises nothing and its action is
    HOLD; when the four columns are present the reason is the default
    HOLD reason, the only one the code has. *)
Theorem generate_signal_missing_indicator_hold (df : DataFrame) (o : list event) :
  (2 <= nrows df)%nat ->
  has_label "Close" (columns df) = true ->
  has_required df = false \/
  (exists k, In k required_cols /\ lookup k (latest df) = Some NaN) ->
  exists r,
    fst (generate_signal (mkWorld (Some df) o)) = Ok r /\
    ret_signal r = HOLD /\
    (has_required df = true ->
     r = Ret3 HOLD (cell_of (latest df) "Close") HOLD_REASON).
Proof.
  intros Hn Hc Hmiss. destruct (has_required df) eqn:Hr.
  - destruct Hmiss as [Habs|[k [Hk Hnan]]]; [discriminate|].
    assert (Hv : verdict df = (HOLD, HOLD_REASON)).
    { unfold verdict. rewrite decide_cases.
      destruct (nan_blocks_both (cell_of (latest df) "Close")
                  (cell_of (latest df) "SMA_200") (cell_of (latest df) "MACD")
                  (cell_of (latest df) "MACD_S") (cell_of (latest df) "RSI_14")
                  (cell_of (previous df) "MACD") (cell_of (previous df) "MACD_S")
                  (cell_of (previous df) "RSI_14")) as [Hb Hs].
      - pose proof (cell_of_lookup _ _ _ Hnan) as E.
        simpl in Hk. destruct Hk as [<-|[<-|[<-|[<-|[]]]]]; auto.
      - rewrite Hb, Hs. reflexivity. }
    eexists. rewrite (generate_signal_ready df o Hn Hc Hr), Hv.
    cbn [fst snd ret_signal]. repeat split.
  - exists (Ret2 HOLD). rewrite (generate_signal_absent df o Hn Hr).
    repeat split. discriminate.
Qed.

Lemma generate_signal_missing_indicator_hold_witness :
  exists r,
    fst (generate_signal (start (Some nan_frame))) = Ok r /\
    ret_signal r = HOLD /\
    (has_required nan_frame = true ->
     r = Ret3 HOLD (cell_of (latest nan_frame) "Close") HOLD_REASON).
Proof.
  apply (generate_signal_missing_indicator_hold nan_frame []).
  - cbv; lia.
  - reflexivity.
  - right. exists "SMA_200". split; [simpl; tauto|reflexivity].
Defined.

(** C4 as written fails: with a required column absent the pair
    ('HOLD', None) comes back, with no reason at all; with the columns
    present and NaN the reason is the default one. *)
Lemma generate_signal_reason_counterexample :
  (2 <= nrows (ohlc [100; 101]%Z))%nat /\
  has_required (ohlc [100; 101]%Z) = false /\
  fst (generate_signal (start (Some (ohlc [100; 101]%Z)))) = Ok (Ret2 HOLD) /\
  lookup "SMA_200" (latest nan_frame) = Some NaN /\
  fst (generate_signal (start (Some nan_frame))) = Ok (Ret3 HOLD (Num 101) HOLD_REASON) /\
  ~ (forall df : DataFrame,
       (2 <= nrows df)%nat ->
       has_required df = false \/
       (exists k, In k required_cols /\ lookup k (latest df) = Some NaN) ->
       exists price,
         fst (generate_signal (start (Some df))) = Ok (Ret3 HOLD price NO_HISTORY)).
Proof.
  repeat split; try reflexivity; try (cbv; lia).
  intro H. destruct (H (ohlc [100; 101]%Z)) as [price Hp].
  - cbv; lia.
  - left. reflexivity.
  - discriminate Hp.
Qed.

(** ** The run, step by step *)

Lemma reported_snoc (o : list event) (e : event) :
  reported (o ++ [e]) = reported o || is_report e.
Proof. unfold reported. rewrite existsb_app. simpl. rewrite orb_false_r. reflexivity. Qed.

Lemma fetch_data_cases (provider : Result DataFrame) (w : world) :
  exists e,
    is_report e = false /\
    fetch_data provider w =
    (Ok tt, mkWorld (fetched provider) (out w ++ [Line "Fetching data..."; e])).
Proof.
  unfold fetch_data, fetched, try_except, bind, print, lift, set_data, raise.
  destruct provider as [df|e]; cbn [data out].
  - destruct (empty df); cbn [data out].
    + eexists. rewrite <- app_assoc. split; [|reflexivity]. reflexivity.
    + destruct (last_close df) as [c|e]; cbn [data out]; eexists;
        rewrite <- app_assoc; (split; [|reflexivity]); reflexivity.
  - eexists. rewrite <- app_assoc. split; [|reflexivity]. reflexivity.
Qed.

Lemma prelude_cases (provider : Result DataFrame) (w : world) :
  exists o,
    reported o = reported (out w) /\
    prelude provider w = (Ok tt, mkWorld (fetched provider) o).
Proof.
  unfold prelude, TradingBot_init, bind, print, set_data. cbn [data out].
  destruct (fetch_data_cases provider
              (mkWorld (Some (mkFrame [] []))
                 ((out w ++ [Line START_MSG]) ++
                  [Line "Initialized TradingBot for GC=F (1h interval)."])))
    as [e [He Hf]].
  rewrite Hf. cbn [out]. eexists. split; [|reflexivity].
  unfold reported. rewrite !existsb_app. simpl. rewrite He, !orb_false_r. reflexivity.
Qed.

Lemma run_trading_strategy_unfold (ta : TALib) (provider : Result DataFrame) (w : world) :
  run_trading_strategy ta provider w =
  match prelude provider w with
  | (Raise e, w1) => (Raise e, w1)
  | (Ok _, w1) =>
    if no_data (data w1) then print (Line EXIT_MSG) w1
    else match calculate_indicators ta w1 with
         | (Raise e, w2) => (Raise e, w2)
         | (Ok _, w2) =>
           match generate_signal w2 with
           | (Raise e, w3) => (Raise e, w3)
           | (Ok r, w3) => report r w3
           end
         end
  end.
Proof.
  unfold run_trading_strategy, prelude, bind, get_data.
  destruct (print (Line START_MSG) w) as [[u|e] w1]; [|reflexivity].
  destruct (TradingBot_init w1) as [[u'|e] w2]; [|reflexivity].
  destruct (fetch_data provider w2) as [[u''|e] w3]; [|reflexivity].
  destruct (no_data (data w3)); reflexivity.
Qed.

Lemma fetched_has_close (provider : Result DataFrame) (df : DataFrame) :
  fetched provider = Some df ->
  provider = Ok df /\ empty df = false /\ has_label "Close" (columns df) = true.
Proof.
  unfold fetched. destruct provider as [d|e]; [|discriminate].
  destruct (empty d) eqn:He; [discriminate|].
  unfold last_close.
  destruct (lookup "Close" (columns d)) eqn:Hc; [|discriminate].
  destruct (1 <=? nrows d)%nat; [|discriminate].
  intro H. injection H as <-. repeat split; auto.
  rewrite has_label_lookup, Hc. reflexivity.
Qed.

(** ** Columns under assignment and renaming *)

Lemma set_column_nonempty (k : string) (c : column) (cols : list (string * column)) :
  set_column k c cols <> [].
Proof. destruct cols as [|[n old] t]; simpl; [|destruct (String.eqb k n)]; discriminate. Qed.

Lemma ta_append_index (df : DataFrame) (res : list (string * column)) :
  index (ta_append df res) = index df.
Proof. reflexivity. Qed.

Lemma ta_append_nonempty (df : DataFrame) (res : list (string * column)) :
  columns df <> [] -> columns (ta_append df res) <> [].
Proof.
  unfold ta_append. cbn [columns]. generalize (columns df) as cols.
  induction res as [|[k c] t IH]; intros cols H; simpl; [exact H|].
  apply IH. apply set_column_nonempty.
Qed.

Lemma rename_nonempty (m : list (string * string)) (df : DataFrame) :
  columns df <> [] -> columns (rename m df) <> [].
Proof. unfold rename. cbn [columns]. destruct (columns df); [tauto|discriminate]. Qed.

(** ** calculate_indicators keeps what its steps keep *)

Lemma calculate_indicators_inv (P : DataFrame -> Prop) (ta : TALib)
    (df : DataFrame) (o : list event) :
  empty df = false ->
  P df ->
  (forall f d res,
      In f [ta_rsi ta; ta_macd ta; ta_sma ta 50; ta_sma ta 200] ->
      f d = Ok res -> P d -> P (ta_append d res)) ->
  exists d,
    P d /\
    ((exists e, calculate_indicators ta (mkWorld (Some df) o) =
                (Raise e, mkWorld (Some d) (o ++ [Line "Calculating technical indicators..."]))) \/
     calculate_indicators ta (mkWorld (Some df) o) =
     (Ok tt, mkWorld (Some (rename macd_renames d))
                     (o ++ [Line "Calculating technical indicators..."]))).
Proof.
  intros He H0 Hstep.
  unfold calculate_indicators, bind, get_data, print, ta_apply, lift, set_data, ret.
  cbn [data out]. rewrite He. unfold bind. cbn [data out].
  destruct (ta_rsi ta df) as [r1|e] eqn:E1;
    [|exists df; split; [exact H0|left; eexists; reflexivity]].
  cbn [data out].
  assert (P1 : P (ta_append df r1)) by (apply (Hstep _ _ _ (or_introl eq_refl) E1 H0)).
  destruct (ta_macd ta (ta_append df r1)) as [r2|e] eqn:E2;
    [|eexists; split; [exact P1|left; eexists; reflexivity]].
  cbn [data out].
  assert (P2 : P (ta_append (ta_append df r1) r2))
    by (apply (Hstep _ _ _ (or_intror (or_introl eq_refl)) E2 P1)).
  destruct (ta_sma ta 50 (ta_append (ta_append df r1) r2)) as [r3|e] eqn:E3;
    [|eexists; split; [exact P2|left; eexists; reflexivity]].
  cbn [data out].
  assert (P3 : P (ta_append (ta_append (ta_append df r1) r2) r3))
    by (apply (Hstep _ _ _ (or_intror (or_intror (or_introl eq_refl))) E3 P2)).
  destruct (ta_sma ta 200 (ta_append (ta_append (ta_append df r1) r2) r3))
    as [r4|e] eqn:E4;
    [|eexists; split; [exact P3|left; eexists; reflexivity]].
  cbn [data out].
  exists (ta_append (ta_append (ta_append (ta_append df r1) r2) r3) r4).
  split; [|right; reflexivity].
  apply (Hstep _ _ _ (or_intror (or_intror (or_intror (or_introl eq_refl)))) E4 P3).
Qed.

(** ** Shapes and output of generate_signal *)

Ltac break_match :=
  match goal with
  | |- context [match ?x with _ => _ end] => destruct x eqn:?
  end.

Lemma generate_signal_one_row (df : DataFrame) (o : list event) :
  empty df = false ->
  (nrows df < 2)%nat ->
  generate_signal (mkWorld (Some df) o) = (Raise IndexError, mkWorld (Some df) o).
Proof.
  intros He Hn. unfold generate_signal, bind, get_data, lift, iloc_neg. cbn [data].
  rewrite He.
  destruct (Nat.leb_spec 2 (nrows df)); [lia|].
  destruct (1 <=? nrows df)%nat; reflexivity.
Qed.

Lemma generate_signal_shape (w : world) (r : retval) :
  fst (generate_signal w) = Ok r ->
  if two_tuple_path w then r = Ret2 HOLD
  else exists s p reason, r = Ret3 s p reason.
Proof.
  destruct w as [[df|] o]; unfold two_tuple_path; cbn [data].
  - destruct (empty df) eqn:He; cbn [orb].
    + rewrite generate_signal_no_data by exact He. intro H. injection H as <-. reflexivity.
    + destruct (Nat.le_gt_cases 2 (nrows df)) as [Hn|Hn].
      * destruct (has_required df) eqn:Hr; cbn [negb].
        -- unfold generate_signal, bind, get_data, lift, iloc_neg. cbn [data].
           rewrite He.
           destruct (Nat.leb_spec 1 (nrows df)); [|lia].
           destruct (Nat.leb_spec 2 (nrows df)); [|lia].
           rewrite required_row, Hr. cbn [negb].
           unfold getitem, print, ret.
           repeat (break_match; cbn [fst]; try discriminate).
           intro Hret. injection Hret as <-. eauto.
        -- rewrite (generate_signal_absent df o Hn Hr). intro H. injection H as <-.
           reflexivity.
      * rewrite (generate_signal_one_row df o He) by lia. discriminate.
  - rewrite generate_signal_no_data by reflexivity. intro H. injection H as <-. reflexivity.
Qed.

Lemma generate_signal_quiet (w : world) :
  reported (out (snd (generate_signal w))) = reported (out w) /\
  data (snd (generate_signal w)) = data w.
Proof.
  destruct w as [d o].
  unfold generate_signal, bind, get_data, lift, print, ret. cbn [data out].
  repeat (break_match; cbn [fst snd data out]);
    rewrite ?reported_snoc, ?orb_false_r; split; try reflexivity;
    repeat match goal with
           | H : (_, _) = (_, _) |- _ => injection H as ? ?; subst
           end; cbn [data out]; rewrite ?reported_snoc, ?orb_false_r; try reflexivity.
Qed.

Lemma report_pair (s : Signal) (w : world) :
  report (Ret2 s) w = (Raise (ValueError UNPACK_MSG), w).
Proof. reflexivity. Qed.

Lemma empty_same_shape (d d' : DataFrame) :
  index d' = index d -> columns d <> [] -> columns d' <> [] -> empty d' = empty d.
Proof.
  intros Hi Hc Hc'. unfold empty, nrows. rewrite Hi.
  destruct (columns d); [tauto|]. destruct (columns d'); [tauto|]. reflexivity.
Qed.

Lemma empty_false_columns (d : DataFrame) : empty d = false -> columns d <> [].
Proof.
  unfold empty. intros H Hc. rewrite Hc in H. simpl in H.
  rewrite orb_true_r in H. discriminate.
Qed.

(** ** The claims on the run *)

(** C5. When the provider fails or delivers an empty frame or fewer than
    two bars, the run ends in failure and no Decision reaches the output:
    it prints the exit line and stops when fetch_data left no data, and it
    is stopped by an exception (the IndexError of [iloc[-2]] on a single
    bar, or one raised by the library) otherwise. *)
Theorem run_insufficient_data_fatal (ta : TALib) (provider : Result DataFrame)
    (w0 : world) :
  match provider with
  | Ok df => empty df = true \/ (nrows df < 2)%nat
  | Raise _ => True
  end ->
  reported (out w0) = false ->
  match fetched provider with
  | None => exited (run_trading_strategy ta provider w0)
  | Some _ => crashed (run_trading_strategy ta provider w0)
  end /\
  reported (out (snd (run_trading_strategy ta provider w0))) = false.
Proof.
  intros Hshort Hquiet. rewrite run_trading_strategy_unfold.
  destruct (prelude_cases provider w0) as [o [Ho Hp]]. rewrite Hp. cbn [data].
  rewrite Hquiet in Ho.
  destruct (fetched provider) as [df|] eqn:Hf; cbn [no_data].
  - destruct (fetched_has_close _ _ Hf) as [-> [He Hc]].
    destruct Hshort as [Hbad|Hn]; [congruence|]. rewrite He.
    destruct (calculate_indicators_inv
                (fun d => index d = index df /\ columns d <> []) ta df o He)
      as [d [[Hi Hcols] [[e Hcalc]|Hcalc]]].
    + split; [reflexivity|exact (empty_false_columns _ He)].
    + intros f d res _ _ [Hi Hcols].
      split; [exact Hi|exact (ta_append_nonempty _ _ Hcols)].
    + rewrite Hcalc. split; [exists e; reflexivity|].
      cbn [snd out]. rewrite reported_snoc, Ho. reflexivity.
    + rewrite Hcalc.
      rewrite generate_signal_one_row.
      * split; [exists IndexError; reflexivity|].
        cbn [snd out]. rewrite reported_snoc, Ho. reflexivity.
      * rewrite <- He. apply empty_same_shape.
        -- exact Hi.
        -- exact (empty_false_columns _ He).
        -- exact (rename_nonempty _ _ Hcols).
      * unfold nrows in *. cbn [rename index]. rewrite Hi. exact Hn.
  - unfold print. cbn [data out snd fst]. split.
    + split; [reflexivity|]. exists o. reflexivity.
    + rewrite reported_snoc, Ho. reflexivity.
Qed.

Lemma run_insufficient_data_fatal_witness :
  crashed (run_trading_strategy SpecTA.lib (Ok (ohlc [100]%Z)) (start None)) /\
  reported (out (snd (run_trading_strategy SpecTA.lib (Ok (ohlc [100]%Z)) (start None)))) = false.
Proof.
  apply (run_insufficient_data_fatal SpecTA.lib (Ok (ohlc [100]%Z)) (start None)).
  - right. cbv. lia.
  - reflexivity.
Defined.

(** C10. generate_signal returns the pair ('HOLD', None) when the data is
    None or empty and when a required column is absent, and a triple on
    every other path that returns; run_trading_strategy unpacks three
    values, so a run that gets the pair ends in a ValueError and prints
    no report. *)
Theorem return_shape_inconsistency (w : world) :
  (no_data (data w) = true -> fst (generate_signal w) = Ok (Ret2 HOLD)) /\
  (forall df, data w = Some df -> (2 <= nrows df)%nat -> has_required df = false ->
              fst (generate_signal w) = Ok (Ret2 HOLD)) /\
  (forall r, fst (generate_signal w) = Ok r ->
             if two_tuple_path w then r = Ret2 HOLD
             else exists s p reason, r = Ret3 s p reason) /\
  (forall ta provider w0 w1 s,
      prelude provider w0 = (Ok tt, w1) ->
      no_data (data w1) = false ->
      calculate_indicators ta w1 = (Ok tt, w) ->
      fst (generate_signal w) = Ok (Ret2 s) ->
      fst (run_trading_strategy ta provider w0) = Raise (ValueError UNPACK_MSG) /\
      reported (out (snd (run_trading_strategy ta provider w0))) = reported (out w)).
Proof.
  repeat split.
  - intro H. rewrite generate_signal_no_data by exact H. reflexivity.
  - intros df Hd Hn Hr. destruct w as [d o]. cbn [data] in Hd. subst d.
    exact (generate_signal_absent df o Hn Hr).
  - exact (generate_signal_shape w).
  - rewrite run_trading_strategy_unfold, H, H0, H1.
    destruct (generate_signal w) as [[r|e] w3]; cbn [fst] in H2; [|discriminate].
    injection H2 as ->. reflexivity.
  - rewrite run_trading_strategy_unfold, H, H0, H1.
    pose proof (generate_signal_quiet w) as [Hq _].
    destruct (generate_signal w) as [[r|e] w3]; cbn [fst] in H2; [|discriminate].
    injection H2 as ->. rewrite report_pair. exact Hq.
Qed.

Lemma return_shape_inconsistency_witness :
  fst (run_trading_strategy silent_ta (Ok (ohlc [100; 101]%Z)) (start None)) =
  Raise (ValueError UNPACK_MSG) /\
  reported (out (snd (run_trading_strategy silent_ta (Ok (ohlc [100; 101]%Z))
                        (start None)))) = false.
Proof.
  destruct (return_shape_inconsistency
              (snd (calculate_indicators silent_ta
                      (snd (prelude (Ok (ohlc [100; 101]%Z)) (start None))))))
    as [_ [_ [_ Hrun]]].
  apply (Hrun silent_ta (Ok (ohlc [100; 101]%Z)) (start None)
              (snd (prelude (Ok (ohlc [100; 101]%Z)) (start None))) HOLD);
    reflexivity.
Defined.

(** ** Lookups after an assignment or a rename *)

Lemma lookup_set_column_same (k : string) (c : column) (cols : list (string * column)) :
  lookup k (set_column k c cols) = Some c.
Proof.
  induction cols as [|[n old] t IH]; simpl.
  - rewrite String.eqb_refl. reflexivity.
  - destruct (String.eqb k n) eqn:E; simpl; rewrite E; [reflexivity|exact IH].
Qed.

Lemma lookup_set_column_other (k k' : string) (c : column)
    (cols : list (string * column)) :
  k <> k' -> lookup k (set_column k' c cols) = lookup k cols.
Proof.
  intro Hne. apply String.eqb_neq in Hne.
  induction cols as [|[n old] t IH]; simpl.
  - rewrite Hne. reflexivity.
  - destruct (String.eqb k' n) eqn:E; simpl.
    + apply String.eqb_eq in E. subst n. rewrite Hne. reflexivity.
    + rewrite IH. reflexivity.
Qed.

Lemma lookup_ta_append_other (k : string) (df : DataFrame) (res : list (string * column)) :
  ~ In k (map fst res) ->
  lookup k (columns (ta_append df res)) = lookup k (columns df).
Proof.
  unfold ta_append. cbn [columns]. generalize (columns df) as cols.
  induction res as [|[n c] t IH]; intros cols Hk; simpl in *; [reflexivity|].
  rewrite IH by tauto. apply lookup_set_column_other. intro E. apply Hk. auto.
Qed.



Lemma lookup_rename_other (m : list (string * string)) (k : string) (df : DataFrame) :
  lookup k m = None ->
  (forall k0 t, lookup k0 m = Some t -> t <> k) ->
  lookup k (columns (rename m df)) = lookup k (columns df).
Proof.
  intros Hsrc Htgt. unfold rename. cbn [columns].
  induction (columns df) as [|[n c] t IH]; simpl; [reflexivity|].
  rewrite IH. destruct (String.eqb_spec k n) as [E|E].
  - subst n. rewrite Hsrc, String.eqb_refl. reflexivity.
  - destruct (lookup n m) as [n'|] eqn:Hn.
    + assert (Hne : k <> n') by (intro; subst; exact (Htgt _ _ Hn eq_refl)).
      apply String.eqb_neq in Hne. rewrite Hne. reflexivity.
    + apply String.eqb_neq in E. rewrite E. reflexivity.
Qed.






(** ** calculate_indicators under a library with the expected names *)


(** ** The indicators of the specification: numeric facts *)

Module SpecFacts.
Import SpecTA.

Lemma Qdiv_nonneg (a b : Q) : 0 <= a -> 0 <= b -> 0 <= a / b.
Proof.
  intros Ha Hb. unfold Qdiv. apply Qmult_le_0_compat; [exact Ha|].
  apply Qinv_le_0_compat. exact Hb.
Qed.

Lemma rsi_value_bounds (g l : Q) : 0 <= g -> 0 <= l -> 0 <= rsi_value g l <= 100.
Proof.
  intros Hg Hl. unfold rsi_value. destruct (Qeq_bool l 0) eqn:E.
  - split; discriminate.
  - assert (Hd : 1 <= 1 + g / l) by (pose proof (Qdiv_nonneg g l Hg Hl); lra).
    assert (Hpos : 0 < 1 + g / l) by lra.
    assert (H1 : 0 <= 100 / (1 + g / l)) by (apply Qdiv_nonneg; lra).
    assert (H2 : 100 / (1 + g / l) <= 100) by (apply Qle_shift_div_r; [exact Hpos|lra]).
    lra.
Qed.

Lemma rsi_value_zero_loss (g l : Q) : l == 0 -> rsi_value g l = 100.
Proof.
  intro H. unfold rsi_value. apply Qeq_bool_iff in H. rewrite H. reflexivity.
Qed.

Lemma Qsum_nonneg (l : list Q) : Forall (Qle 0) l -> 0 <= Qsum l.
Proof.
  induction 1 as [|x t Hx Ht IH]; simpl; [discriminate|lra].
Qed.

Lemma inject_nat_nonneg (n : nat) : 0 <= inject_Z (Z.of_nat n).
Proof. change 0 with (inject_Z 0). rewrite <- Zle_Qle. lia. Qed.

Lemma mean_nonneg (l : list Q) : Forall (Qle 0) l -> 0 <= mean l.
Proof.
  intro H. unfold mean. apply Qdiv_nonneg; [exact (Qsum_nonneg l H)|].
  apply inject_nat_nonneg.
Qed.

Lemma wilder_run_nonneg (n prev : Q) (l : list Q) :
  1 <= n -> 0 <= prev -> Forall (Qle 0) l -> Forall (Qle 0) (wilder_run n prev l).
Proof.
  intros Hn Hp Hl. revert prev Hp.
  induction Hl as [|x t Hx Ht IH]; intros prev Hp; simpl; constructor.
  - apply Qdiv_nonneg; [|lra].
    pose proof (Qmult_le_0_compat prev (n - 1) Hp ltac:(lra)). lra.
  - apply IH. apply Qdiv_nonneg; [|lra].
    pose proof (Qmult_le_0_compat prev (n - 1) Hp ltac:(lra)). lra.
Qed.

Lemma Forall_firstn_Q (P : Q -> Prop) (n : nat) (l : list Q) :
  Forall P l -> Forall P (firstn n l).
Proof.
  intro H. revert n. induction H as [|x t Hx Ht IH]; intros [|n]; simpl; auto.
Qed.

Lemma Forall_skipn_Q (P : Q -> Prop) (n : nat) (l : list Q) :
  Forall P l -> Forall P (skipn n l).
Proof.
  intro H. revert n. induction H as [|x t Hx Ht IH]; intros [|n]; simpl; auto.
Qed.

Lemma wilder_vals_nonneg (n : nat) (l : list Q) :
  (1 <= n)%nat -> Forall (Qle 0) l -> Forall (Qle 0) (wilder_vals n l).
Proof.
  intros Hn Hl. unfold wilder_vals. destruct (n <=? length l)%nat; [|constructor].
  assert (Hm : 0 <= mean (firstn n l)) by (apply mean_nonneg, Forall_firstn_Q, Hl).
  constructor; [exact Hm|].
  apply wilder_run_nonneg; [|exact Hm|apply Forall_skipn_Q, Hl].
  change 1 with (inject_Z 1). rewrite <- Zle_Qle. lia.
Qed.

Lemma gain_nonneg (d : Q) : 0 <= gain d.
Proof.
  unfold gain. destruct (Qle_bool 0 d) eqn:E; [apply Qle_bool_iff, E|discriminate].
Qed.

Lemma loss_nonneg (d : Q) : 0 <= loss d.
Proof.
  unfold loss. destruct (Qle_bool 0 d) eqn:E; [discriminate|].
  assert (H : ~ 0 <= d) by (intro H; apply Qle_bool_iff in H; congruence).
  apply Qnot_le_lt in H. lra.
Qed.

Lemma avg_gain_nonneg (closes : list Q) : Forall (Qle 0) (avg_gain_vals closes).
Proof.
  apply wilder_vals_nonneg; [lia|]. apply Forall_forall. intros x Hx.
  apply in_map_iff in Hx. destruct Hx as [d [<- _]]. apply gain_nonneg.
Qed.

Lemma avg_loss_nonneg (closes : list Q) : Forall (Qle 0) (avg_loss_vals closes).
Proof.
  apply wilder_vals_nonneg; [lia|]. apply Forall_forall. intros x Hx.
  apply in_map_iff in Hx. destruct Hx as [d [<- _]]. apply loss_nonneg.
Qed.

Lemma In_zip_with (f : Q -> Q -> Q) (a b : list Q) (q : Q) :
  In q (zip_with f a b) -> exists x y, In x a /\ In y b /\ q = f x y.
Proof.
  revert b. induction a as [|x a IH]; intros [|y b] H; simpl in H; try tauto.
  destruct H as [<-|H].
  - exists x, y. simpl. auto.
  - destruct (IH b H) as [x' [y' [Hx [Hy ->]]]]. exists x', y'. simpl. auto.
Qed.

Lemma rsi_vals_bounds (closes : list Q) (q : Q) :
  In q (rsi_vals closes) -> 0 <= q <= 100.
Proof.
  intro H. apply In_zip_with in H. destruct H as [g [l [Hg [Hl ->]]]].
  apply rsi_value_bounds.
  - exact (proj1 (Forall_forall _ _) (avg_gain_nonneg closes) g Hg).
  - exact (proj1 (Forall_forall _ _) (avg_loss_nonneg closes) l Hl).
Qed.

(** ** Alignment of a column *)

Lemma In_firstn_cell (x : cell) (n : nat) (l : column) : In x (firstn n l) -> In x l.
Proof.
  revert n. induction l as [|y t IH]; intros [|n] H; simpl in *; try tauto.
  destruct H as [H|H]; [auto|right; exact (IH n H)].
Qed.

Lemma In_align (rows warm : nat) (vals : list Q) (q : Q) :
  In (Num q) (align rows warm vals) -> In q vals.
Proof.
  unfold align. intro H. apply In_firstn_cell in H. apply in_app_or in H.
  destruct H as [H|H].
  - apply repeat_spec in H. discriminate.
  - apply in_map_iff in H. destruct H as [x [E Hx]]. injection E as <-. exact Hx.
Qed.



Lemma nth_error_firstn_lt (A : Type) (i n : nat) (l : list A) :
  (i < n)%nat -> nth_error (firstn n l) i = nth_error l i.
Proof.
  revert i l. induction n as [|n IH]; intros [|i] [|x l] H; simpl; try reflexivity; try lia.
  apply IH. lia.
Qed.

Lemma nth_error_align (rows warm i : nat) (vals : list Q) :
  (warm + i < rows)%nat ->
  nth_error (align rows warm vals) (warm + i) = option_map Num (nth_error vals i).
Proof.
  intro H. unfold align. rewrite nth_error_firstn_lt by exact H.
  rewrite nth_error_app2 by (rewrite repeat_length; lia).
  rewrite repeat_length. replace (warm + i - warm)%nat with i by lia.
  apply nth_error_map.
Qed.

Lemma wilder_run_length (n prev : Q) (l : list Q) :
  length (wilder_run n prev l) = length l.
Proof.
  revert prev. induction l as [|x t IH]; intro prev; simpl; [reflexivity|].
  rewrite IH. reflexivity.
Qed.

Lemma wilder_vals_length (n : nat) (a b : list Q) :
  length a = length b -> length (wilder_vals n a) = length (wilder_vals n b).
Proof.
  intro H. unfold wilder_vals. rewrite H.
  destruct (n <=? length b)%nat; [|reflexivity]. simpl.
  rewrite !wilder_run_length, !length_skipn, H. reflexivity.
Qed.

Lemma nth_error_zip_with (f : Q -> Q -> Q) (a b : list Q) (i : nat) (x y : Q) :
  nth_error a i = Some x -> nth_error b i = Some y ->
  nth_error (zip_with f a b) i = Some (f x y).
Proof.
  revert a b. induction i as [|i IH]; intros [|x' a] [|y' b] Ha Hb;
    simpl in *; try discriminate.
  - injection Ha as ->. injection Hb as ->. reflexivity.
  - exact (IH a b Ha Hb).
Qed.

Lemma rsi_vals_zero_loss (closes : list Q) (i : nat) (l : Q) :
  nth_error (avg_loss_vals closes) i = Some l ->
  l == 0 ->
  nth_error (rsi_vals closes) i = Some 100.
Proof.
  intros Hl Hz.
  assert (Hlen : length (avg_gain_vals closes) = length (avg_loss_vals closes)).
  { apply wilder_vals_length. rewrite !length_map. reflexivity. }
  destruct (nth_error (avg_gain_vals closes) i) as [g|] eqn:Hg.
  - unfold rsi_vals. rewrite (nth_error_zip_with _ _ _ _ _ _ Hg Hl).
    rewrite (rsi_value_zero_loss g l Hz). reflexivity.
  - apply nth_error_None in Hg.
    assert (Hi : (i < length (avg_loss_vals closes))%nat)
      by (apply nth_error_Some; congruence).
    lia.
Qed.

End SpecFacts.

(** ** calculate_indicators with the indicators of the specification *)

Lemma close_series_append (df : DataFrame) (res : list (string * column)) :
  ~ In "Close" (map fst res) ->
  SpecTA.close_series (ta_append df res) = SpecTA.close_series df.
Proof.
  intro H. unfold SpecTA.close_series. rewrite lookup_ta_append_other by exact H.
  reflexivity.
Qed.

Lemma spec_calculate (df : DataFrame) (o : list event) (closes : list Q) :
  empty df = false ->
  SpecTA.close_series df = Ok closes ->
  calculate_indicators SpecTA.lib (mkWorld (Some df) o) =
  (Ok tt, mkWorld (Some (spec_enriched df closes)) (o ++ [Line CALC_MSG])).
Proof.
  intros He Hc.
  unfold calculate_indicators, bind, get_data, print. cbn [data out]. rewrite He.
  unfold ta_apply, bind, lift, set_data, ret. cbn [ta_rsi ta_macd ta_sma SpecTA.lib].
  unfold SpecTA.rsi, SpecTA.macd, SpecTA.sma, SpecTA.with_closes.
  rewrite Hc. cbn [data out].
  rewrite close_series_append, Hc by (simpl; intuition discriminate). cbn [data out].
  rewrite close_series_append, close_series_append, Hc
    by (simpl; intuition discriminate).
  cbn [data out].
  rewrite close_series_append, close_series_append, close_series_append, Hc
    by (simpl; intuition discriminate).
  reflexivity.
Qed.

Lemma lookup_rename_macd (k : string) (df : DataFrame) :
  ~ In k ["MACD_12_26_9"; "MACDH_12_26_9"; "MACDS_12_26_9"; "MACD"; "MACD_H"; "MACD_S"] ->
  lookup k (columns (rename macd_renames df)) = lookup k (columns df).
Proof.
  intro Hk. apply lookup_rename_other.
  - unfold macd_renames. simpl.
    repeat match goal with
           | |- context [String.eqb k ?s] =>
             destruct (String.eqb_spec k s); [exfalso; apply Hk; subst; simpl; tauto|]
           end.
    reflexivity.
  - intros k0 t Hl <-. unfold macd_renames in Hl. simpl in Hl.
    repeat match type of Hl with
           | (if ?b then _ else _) = _ => destruct b
           end; try discriminate; injection Hl as <-; apply Hk; simpl; tauto.
Qed.

Lemma label_rename_intro (m : list (string * string)) (k : string) (df : DataFrame) :
  has_label k (columns df) = true ->
  has_label (renamed m k) (columns (rename m df)) = true.
Proof.
  unfold rename, has_label. cbn [columns]. rewrite !existsb_exists.
  intros [x [Hin Hx]]. apply String.eqb_eq in Hx. subst x.
  apply in_map_iff in Hin. destruct Hin as [[n c] [Hn Hin]]. simpl in Hn. subst n.
  exists (renamed m k). split; [|apply String.eqb_refl].
  rewrite map_map. apply in_map_iff. exists (k, c). auto.
Qed.

Lemma label_set_column_intro (k k' : string) (c : column)
    (cols : list (string * column)) :
  k = k' \/ has_label k cols = true -> has_label k (set_column k' c cols) = true.
Proof.
  rewrite !has_label_lookup. destruct (String.eqb_spec k k') as [->|E].
  - rewrite lookup_set_column_same. reflexivity.
  - rewrite lookup_set_column_other by exact E. intros [H|H]; [contradiction|exact H].
Qed.

Lemma label_ta_append_intro (k : string) (df : DataFrame) (res : list (string * column)) :
  has_label k (columns df) = true \/ In k (map fst res) ->
  has_label k (columns (ta_append df res)) = true.
Proof.
  unfold ta_append. cbn [columns]. generalize (columns df) as cols.
  induction res as [|[n c] t IH]; intros cols H; simpl in *; [tauto|].
  apply IH. destruct H as [H|[H|H]]; auto.
  - left. apply label_set_column_intro. auto.
  - left. apply label_set_column_intro. auto.
Qed.

Lemma spec_enriched_index (df : DataFrame) (closes : list Q) :
  index (spec_enriched df closes) = index df.
Proof. reflexivity. Qed.


Lemma spec_enriched_rsi (df : DataFrame) (closes : list Q) :
  lookup "RSI_14" (columns (spec_enriched df closes)) =
  Some (SpecTA.rsi_column (nrows df) closes).
Proof.
  unfold spec_enriched, spec_results. cbn [fold_left].
  rewrite lookup_rename_macd by (simpl; intuition discriminate).
  rewrite !lookup_ta_append_other by (simpl; intuition discriminate).
  unfold ta_append. cbn [columns fold_left fst snd].
  apply lookup_set_column_same.
Qed.






(** ** The enriched frame, column by column *)

Lemma ta_append_app (df : DataFrame) (r1 r2 : list (string * column)) :
  ta_append (ta_append df r1) r2 = ta_append df (r1 ++ r2).
Proof. unfold ta_append. cbn [index columns]. rewrite fold_left_app. reflexivity. Qed.













Lemma ohlc_fresh (closes : list Z) : fresh (ohlc closes).
Proof.
  intros k Hk. unfold engine_names, derived_names in Hk. simpl in Hk.
  repeat (destruct Hk as [<-|Hk]; [reflexivity|]). destruct Hk.
Qed.









(** ** The claims on the indicators *)




(** C7. With the RSI of the specification, every defined value of the
    RSI_14 column that calculate_indicators leaves is between 0 and 100,
    and the value is exactly 100 on every bar whose 14-period average
    loss is zero. *)
Theorem rsi_bounds (df : DataFrame) (o : list event) (closes : list Q) :
  empty df = false ->
  SpecTA.close_series df = Ok closes ->
  exists df' col,
    data (snd (calculate_indicators SpecTA.lib (mkWorld (Some df) o))) = Some df' /\
    lookup "RSI_14" (columns df') = Some col /\
    (forall q, In (Num q) col -> 0 <= q <= 100) /\
    (forall i l,
        nth_error (SpecTA.avg_loss_vals closes) i = Some l ->
        l == 0 ->
        (14 + i < nrows df)%nat ->
        nth_error col (14 + i) = Some (Num 100)).
Proof.
  intros He Hc.
  exists (spec_enriched df closes), (SpecTA.rsi_column (nrows df) closes).
  rewrite (spec_calculate df o closes He Hc). cbn [snd data].
  split; [reflexivity|]. split; [apply spec_enriched_rsi|]. split.
  - intros q Hq. unfold SpecTA.rsi_column in Hq.
    apply SpecFacts.In_align in Hq. exact (SpecFacts.rsi_vals_bounds closes q Hq).
  - intros i l Hl Hz Hi. unfold SpecTA.rsi_column.
    rewrite SpecFacts.nth_error_align by exact Hi.
    rewrite (SpecFacts.rsi_vals_zero_loss closes i l Hl Hz). reflexivity.
Qed.

Lemma rsi_bounds_witness :
  exists df' col,
    data (snd (calculate_indicators SpecTA.lib (start (Some (ohlc sample_closes))))) =
    Some df' /\
    lookup "RSI_14" (columns df') = Some col /\
    (forall q, In (Num q) col -> 0 <= q <= 100) /\
    (forall i l,
        nth_error (SpecTA.avg_loss_vals (map inject_Z sample_closes)) i = Some l ->
        l == 0 ->
        (14 + i < nrows (ohlc sample_closes))%nat ->
        nth_error col (14 + i) = Some (Num 100)).
Proof.
  apply (rsi_bounds (ohlc sample_closes) [] (map inject_Z sample_closes));
    reflexivity.
Defined.



(** * Further properties of the code *)

(** ** generate_signal: errors and what it leaves alone *)

Lemma required_nonempty (df : DataFrame) :
  (1 <= nrows df)%nat -> has_required df = true -> empty df = false.
Proof.
  intros Hn Hr. apply (nonempty_frame df "RSI_14"); [exact Hn|].
  unfold has_required, required_cols in Hr. cbn [forallb] in Hr.
  apply andb_prop in Hr. exact (proj1 Hr).
Qed.

Lemma generate_signal_no_close (df : DataFrame) (o : list event) :
  (2 <= nrows df)%nat ->
  has_required df = true ->
  has_label "Close" (columns df) = false ->
  generate_signal (mkWorld (Some df) o) = (Raise (KeyError "Close"), mkWorld (Some df) o).
Proof.
  intros Hn Hr Hc.
  assert (He : empty df = false) by (apply required_nonempty; [lia|exact Hr]).
  unfold generate_signal, bind, get_data, lift, iloc_neg. cbn [data].
  rewrite He.
  destruct (Nat.leb_spec 1 (nrows df)); [|lia].
  destruct (Nat.leb_spec 2 (nrows df)); [|lia].
  rewrite required_row, Hr. cbn [negb]. unfold getitem.
  rewrite <- (has_label_row_at "Close" df (nrows df - 1)), has_label_lookup in Hc.
  destruct (lookup "Close" (row_at df (nrows df - 1))); [discriminate|reflexivity].
Qed.

(** X1. The column check of line 84 does not cover Close: on a frame
    with two or more bars that has the four indicator columns and no
    Close column, generate_signal raises KeyError('Close') at line 89,
    before anything is printed. *)
Theorem generate_signal_missing_close (df : DataFrame) (o : list event) :
  (2 <= nrows df)%nat ->
  has_required df = true ->
  has_label "Close" (columns df) = false ->
  fst (generate_signal (mkWorld (Some df) o)) = Raise (KeyError "Close") /\
  out (snd (generate_signal (mkWorld (Some df) o))) = o.
Proof.
  intros Hn Hr Hc. rewrite (generate_signal_no_close df o Hn Hr Hc). split; reflexivity.
Qed.

Lemma generate_signal_missing_close_witness :
  fst (generate_signal (start (Some no_close_frame))) = Raise (KeyError "Close") /\
  out (snd (generate_signal (start (Some no_close_frame)))) = [].
Proof.
  apply (generate_signal_missing_close no_close_frame []).
  - cbv. lia.
  - reflexivity.
  - reflexivity.
Defined.

(** X2. On a non-empty frame with a single bar generate_signal raises
    IndexError at [iloc[-2]] (line 80), whatever columns the frame has:
    the rows are read before the column check, so the pair of line 86 is
    not returned either. *)
Theorem generate_signal_single_bar (df : DataFrame) (o : list event) :
  empty df = false ->
  nrows df = 1%nat ->
  fst (generate_signal (mkWorld (Some df) o)) = Raise IndexError /\
  out (snd (generate_signal (mkWorld (Some df) o))) = o.
Proof.
  intros He Hn. rewrite (generate_signal_one_row df o He) by lia. split; reflexivity.
Qed.

Lemma generate_signal_single_bar_witness :
  fst (generate_signal (start (Some (ohlc [100]%Z)))) = Raise IndexError /\
  out (snd (generate_signal (start (Some (ohlc [100]%Z))))) = [].
Proof.
  apply (generate_signal_single_bar (ohlc [100]%Z) []); reflexivity.
Defined.

(** X3. generate_signal only reads the frame: it leaves self.data as it
    was, prints at most one line, none when it raises, and never prints
    the final report. *)
Theorem generate_signal_read_only (w : world) :
  data (snd (generate_signal w)) = data w /\
  exists evs : list event,
    out (snd (generate_signal w)) = (out w ++ evs)%list /\
    (length evs <= 1)%nat /\
    reported evs = false /\
    (forall e, fst (generate_signal w) = Raise e -> evs = []).
Proof.
  destruct w as [d o].
  unfold generate_signal, bind, get_data, lift, print, ret. cbn [data out].
  repeat (break_match; cbn [fst snd data out]);
    repeat match goal with
           | H : (_, _) = (_, _) |- _ => injection H as ? ?; subst
           end; cbn [fst snd data out];
    (split; [reflexivity|]);
    first [ exists []; rewrite app_nil_r; repeat split; simpl; auto; discriminate
          | eexists [_]; repeat split; simpl; auto; discriminate ].
Qed.

(** ** generate_signal: what the decision depends on *)

Lemma empty_by_latest (df df' : DataFrame) :
  (1 <= nrows df)%nat -> (1 <= nrows df')%nat ->
  latest df = latest df' -> empty df = empty df'.
Proof.
  intros Hn Hn' Hl. unfold empty.
  assert (Hlen : length (columns df) = length (columns df')).
  { assert (Hrow : forall d, length (latest d) = length (columns d))
      by (intro d; unfold latest, row_at; apply length_map).
    rewrite <- (Hrow df), <- (Hrow df'), Hl. reflexivity. }
  rewrite Hlen.
  destruct (Nat.eqb_spec (nrows df) 0); [lia|].
  destruct (Nat.eqb_spec (nrows df') 0); [lia|]. reflexivity.
Qed.

(** X4. The decision is a function of the last two rows: two frames with
    two or more bars whose latest rows agree and whose previous rows
    agree get the same result (value or exception) from generate_signal,
    whatever older bars they hold and whatever was printed before. *)
Theorem generate_signal_last_two_rows (df df' : DataFrame) (o o' : list event) :
  (2 <= nrows df)%nat ->
  (2 <= nrows df')%nat ->
  latest df = latest df' ->
  previous df = previous df' ->
  fst (generate_signal (mkWorld (Some df) o)) =
  fst (generate_signal (mkWorld (Some df') o')).
Proof.
  intros Hn Hn' Hl Hp.
  pose proof (empty_by_latest df df' ltac:(lia) ltac:(lia) Hl) as He.
  unfold generate_signal, bind, get_data, lift, iloc_neg. cbn [data].
  rewrite He.
  destruct (Nat.leb_spec 1 (nrows df)); [|lia].
  destruct (Nat.leb_spec 2 (nrows df)); [|lia].
  destruct (Nat.leb_spec 1 (nrows df')); [|lia].
  destruct (Nat.leb_spec 2 (nrows df')); [|lia].
  fold (latest df) (previous df) (latest df') (previous df').
  rewrite Hl, Hp. unfold print, ret.
  repeat (break_match; cbn [fst]; try reflexivity).
Qed.

Lemma generate_signal_last_two_rows_witness :
  fst (generate_signal (start (Some long_buy_frame))) =
  fst (generate_signal (start (Some buy_frame))).
Proof.
  apply (generate_signal_last_two_rows long_buy_frame buy_frame [] []).
  - cbv. lia.
  - cbv. lia.
  - reflexivity.
  - reflexivity.
Defined.

(** X5. SELL looks at the latest row only: whatever the cells read hold,
    NaN included, generate_signal returns SELL exactly when the close is
    below SMA_200, MACD is below its signal line and RSI_14 is above 50
    on the latest row; the previous row has no say. *)
Theorem generate_signal_sell_latest_only (df : DataFrame) (o : list event)
    (close sma200 macd macd_s rsi pmacd pmacd_s prsi : cell) :
  reads df close sma200 macd macd_s rsi pmacd pmacd_s prsi ->
  signal_of (generate_signal (mkWorld (Some df) o)) = Some SELL <->
  sell_cond close sma200 macd macd_s rsi = true.
Proof.
  intro Hr. rewrite (generate_signal_reads _ o _ _ _ _ _ _ _ _ Hr).
  unfold signal_of. cbn [fst ret_signal]. rewrite decide_cases.
  destruct (buy_cond close sma200 macd macd_s rsi pmacd pmacd_s prsi) eqn:Hb.
  - rewrite (buy_sell_exclusive _ _ _ _ _ _ _ _ Hb). cbn [fst].
    split; discriminate.
  - destruct (sell_cond close sma200 macd macd_s rsi); cbn [fst];
      split; intro H; try reflexivity; discriminate.
Qed.

Lemma generate_signal_sell_latest_only_witness :
  signal_of (generate_signal (start (Some sell_frame))) = Some SELL <->
  sell_cond (Num 95) (Num 100) (Num (-2)) (Num (-1)) (Num 55) = true.
Proof.
  apply (generate_signal_sell_latest_only sell_frame [] (Num 95) (Num 100)
           (Num (-2)) (Num (-1)) (Num 55) (Num (-1)) (Num 0) (Num 58)).
  constructor; [cbv; lia | reflexivity ..].
Defined.

Lemma cell_gt_not_le (a b : cell) : cell_gt a b = true -> cell_le a b = false.
Proof.
  unfold cell_gt. destruct a as [|x], b as [|y]; simpl; try discriminate; intro H.
  apply Qlt_bool_iff in H. destruct (Qle_bool x y) eqn:E; [|reflexivity].
  apply Qle_bool_iff in E. exfalso. exact (Qlt_not_le _ _ H E).
Qed.

(** X6. BUY does not repeat on the next bar: when generate_signal
    answers BUY on a frame, it cannot answer BUY on a frame whose previous
    row holds the MACD and MACD_S of that latest row, because the
    crossover test of line 93 needs MACD at or below its signal line
    there. *)
Theorem generate_signal_no_consecutive_buy (df df' : DataFrame) (o o' : list event)
    (close sma200 macd macd_s rsi pmacd pmacd_s prsi : cell)
    (close' sma200' macd' macd_s' rsi' prsi' : cell) :
  reads df close sma200 macd macd_s rsi pmacd pmacd_s prsi ->
  reads df' close' sma200' macd' macd_s' rsi' macd macd_s prsi' ->
  signal_of (generate_signal (mkWorld (Some df) o)) = Some BUY ->
  signal_of (generate_signal (mkWorld (Some df') o')) <> Some BUY.
Proof.
  intros Hr Hr'.
  rewrite (generate_signal_reads _ o _ _ _ _ _ _ _ _ Hr).
  rewrite (generate_signal_reads _ o' _ _ _ _ _ _ _ _ Hr').
  unfold signal_of. cbn [fst ret_signal]. rewrite !decide_cases.
  destruct (buy_cond close sma200 macd macd_s rsi pmacd pmacd_s prsi) eqn:Hb.
  - intros _. unfold buy_cond in Hb.
    apply andb_prop in Hb. destruct Hb as [Hb _].
    apply andb_prop in Hb. destruct Hb as [Hb _].
    apply andb_prop in Hb. destruct Hb as [_ Hb].
    apply andb_prop in Hb. destruct Hb as [Hb _].
    assert (Hx : buy_cond close' sma200' macd' macd_s' rsi' macd macd_s prsi' = false).
    { unfold buy_cond. rewrite (cell_gt_not_le macd macd_s) by assumption.
      rewrite !andb_false_r. reflexivity. }
    rewrite Hx. destruct (sell_cond close' sma200' macd' macd_s' rsi'); discriminate.
  - destruct (sell_cond close sma200 macd macd_s rsi); discriminate.
Qed.

Lemma generate_signal_no_consecutive_buy_witness :
  signal_of (generate_signal (start (Some after_buy_frame))) <> Some BUY.
Proof.
  apply (generate_signal_no_consecutive_buy buy_frame after_buy_frame [] []
           (Num 105) (Num 100) (Num 2) (Num 1) (Num 60) (Num (-1)) (Num 0) (Num 55)
           (Num 106) (Num 100) (Num 3) (Num 2) (Num 62) (Num 60)).
  - constructor; [cbv; lia | reflexivity ..].
  - constructor; [cbv; lia | reflexivity ..].
  - reflexivity.
Defined.

(** ** fetch_data *)

(** X7. fetch_data never raises: whatever the provider does, it returns
    normally, and afterwards self.data is either None or a non-empty frame
    with a Close column, the one the provider returned.  It is None when
    the provider raised, returned an empty frame, or returned a frame
    without a Close column (the KeyError of line 37 is caught like any
    other exception). *)
Theorem fetch_data_postcondition (provider : Result DataFrame) (w : world) :
  fst (fetch_data provider w) = Ok tt /\
  match data (snd (fetch_data provider w)) with
  | Some df =>
    provider = Ok df /\ empty df = false /\ has_label "Close" (columns df) = true
  | None =>
    match provider with
    | Raise _ => True
    | Ok df => empty df = true \/ has_label "Close" (columns df) = false
    end
  end.
Proof.
  destruct (fetch_data_cases provider w) as [e [_ Hf]]. rewrite Hf. cbn [fst snd data].
  split; [reflexivity|].
  destruct (fetched provider) as [df|] eqn:Hd.
  - exact (fetched_has_close provider df Hd).
  - destruct provider as [df|e']; [|exact I].
    unfold fetched in Hd. destruct (empty df) eqn:He; [auto|].
    right. unfold last_close in Hd. rewrite has_label_lookup.
    destruct (lookup "Close" (columns df)); [|reflexivity].
    destruct (Nat.leb_spec 1 (nrows df)); [discriminate|].
    unfold empty in He. apply orb_false_iff in He. destruct He as [He _].
    apply Nat.eqb_neq in He. lia.
Qed.

(** ** calculate_indicators *)

(** X8. On a bot whose data is None or empty, calculate_indicators
    followed by generate_signal never calls the library and raises
    nothing: the data stays as it was, the only line printed is the
    missing-data message, and the pair ('HOLD', None) comes back. *)
Theorem no_data_methods (ta : TALib) (w : world) :
  no_data (data w) = true ->
  (calculate_indicators ta ;;; generate_signal) w =
  (Ok (Ret2 HOLD), mkWorld (data w) (out w ++ [Line NO_DATA_MSG])).
Proof.
  intro H. unfold bind at 1.
  assert (Hc : calculate_indicators ta w = (Ok tt, w)).
  { unfold calculate_indicators, bind, get_data, ret.
    destruct w as [[df|] o]; cbn [data no_data] in *; [rewrite H|]; reflexivity. }
  rewrite Hc. apply generate_signal_no_data. exact H.
Qed.

Lemma no_data_methods_witness :
  (calculate_indicators failing_ta ;;; generate_signal)
    (snd (TradingBot_init (start None))) =
  (Ok (Ret2 HOLD),
   mkWorld (Some (mkFrame [] []))
           [Line "Initialized TradingBot for GC=F (1h interval)."; Line NO_DATA_MSG]).
Proof.
  apply (no_data_methods failing_ta (snd (TradingBot_init (start None)))).
  reflexivity.
Defined.

Lemma set_column_length (k : string) (c : column) (cols : list (string * column)) :
  (length cols <= length (set_column k c cols))%nat.
Proof.
  induction cols as [|[n old] t IH]; simpl; [lia|].
  destruct (String.eqb k n); simpl; lia.
Qed.

Lemma ta_append_length (df : DataFrame) (res : list (string * column)) :
  (length (columns df) <= length (columns (ta_append df res)))%nat.
Proof.
  unfold ta_append. cbn [columns]. generalize (columns df) as cols.
  induction res as [|[n c] t IH]; intro cols; simpl; [lia|].
  pose proof (set_column_length n c cols). pose proof (IH (set_column n c cols)). lia.
Qed.

(** X9. Whatever the library returns or raises, calculate_indicators
    keeps the bars and drops no column: the index is unchanged, the frame
    has at least as many columns as before, and every label that is not
    one of the three renamed MACD names is still a label. *)
Theorem calculate_indicators_keeps_bars (ta : TALib) (w : world) (df : DataFrame) :
  data w = Some df ->
  exists df',
    data (snd (calculate_indicators ta w)) = Some df' /\
    index df' = index df /\
    (length (columns df) <= length (columns df'))%nat /\
    (forall k, lookup k macd_renames = None ->
               has_label k (columns df) = true -> has_label k (columns df') = true).
Proof.
  intro Hd. destruct w as [d o]. cbn [data] in Hd. subst d.
  destruct (empty df) eqn:He.
  - exists df. unfold calculate_indicators, bind, get_data, ret. cbn [data].
    rewrite He. cbn [snd data]. auto.
  - destruct (calculate_indicators_inv
                (fun d => index d = index df /\
                          (length (columns df) <= length (columns d))%nat /\
                          (forall k, has_label k (columns df) = true ->
                                     has_label k (columns d) = true))
                ta df o He)
      as [d [[Hi [Hlen Hlab]] [[e Hcalc]|Hcalc]]].
    + auto.
    + intros f d res _ _ [Hi [Hlen Hlab]]. repeat split.
      * exact Hi.
      * pose proof (ta_append_length d res). lia.
      * intros k Hk. apply label_ta_append_intro. left. exact (Hlab k Hk).
    + exists d. rewrite Hcalc. cbn [snd data]. auto.
    + exists (rename macd_renames d). rewrite Hcalc. cbn [snd data]. repeat split.
      * exact Hi.
      * unfold rename. cbn [columns]. rewrite length_map. exact Hlen.
      * intros k Hk Hl.
        pose proof (label_rename_intro macd_renames k d (Hlab k Hl)) as H.
        unfold renamed in H. rewrite Hk in H. exact H.
Qed.

Lemma calculate_indicators_keeps_bars_witness :
  exists df',
    data (snd (calculate_indicators failing_ta (start (Some (ohlc [100; 101]%Z))))) =
    Some df' /\
    index df' = [0; 1]%Z /\
    (4 <= length (columns df'))%nat /\
    (forall k, lookup k macd_renames = None ->
               has_label k (columns (ohlc [100; 101]%Z)) = true ->
               has_label k (columns df') = true).
Proof.
  apply (calculate_indicators_keeps_bars failing_ta
           (start (Some (ohlc [100; 101]%Z))) (ohlc [100; 101]%Z)).
  reflexivity.
Defined.

(** ** run_trading_strategy: the report *)

Lemma last_of_rev (l r : list Z) (t d : Z) : rev l = t :: r -> last l d = t.
Proof.
  intro H. rewrite <- (rev_involutive l), H. simpl. apply last_last.
Qed.

Lemma verdict_in_table (close sma200 macd macd_s rsi pmacd pmacd_s prsi : cell) :
  In (decide close sma200 macd macd_s rsi pmacd pmacd_s prsi) verdicts.
Proof.
  rewrite decide_cases. unfold verdicts.
  destruct (buy_cond _ _ _ _ _ _ _ _); [|destruct (sell_cond _ _ _ _ _)];
    simpl; tauto.
Qed.

Lemma generate_signal_triple (w : world) (s : Signal) (p : cell) (reason : string) :
  fst (generate_signal w) = Ok (Ret3 s p reason) -> In (s, reason) verdicts.
Proof.
  destruct w as [[df|] o].
  - destruct (empty df) eqn:He.
    { rewrite generate_signal_no_data by exact He. discriminate. }
    destruct (Nat.le_gt_cases 2 (nrows df)) as [Hn|Hn].
    + destruct (has_required df) eqn:Hr.
      * destruct (has_label "Close" (columns df)) eqn:Hc.
        -- rewrite (generate_signal_ready df o Hn Hc Hr). cbn [fst].
           intro H. injection H as <- _ <-. unfold verdict.
           rewrite <- surjective_pairing. apply verdict_in_table.
        -- rewrite (generate_signal_no_close df o Hn Hr Hc). discriminate.
      * rewrite (generate_signal_absent df o Hn Hr). discriminate.
    + rewrite (generate_signal_one_row df o He) by lia. discriminate.
  - rewrite generate_signal_no_data by reflexivity. discriminate.
Qed.

(** X10. A run whose fetch and indicator step succeed and leave a frame
    with two or more bars and the four required columns ends normally:
    after the signal line it prints one final report, carrying the symbol,
    the timestamp of the last bar, the latest Close and the signal and
    reason that the decision rule gives on the last two rows. *)
Theorem run_reports_decision (ta : TALib) (provider : Result DataFrame)
    (w0 w1 w2 : world) (df2 : DataFrame) :
  prelude provider w0 = (Ok tt, w1) ->
  calculate_indicators ta w1 = (Ok tt, w2) ->
  data w2 = Some df2 ->
  (2 <= nrows df2)%nat ->
  has_required df2 = true ->
  run_trading_strategy ta provider w0 =
  (Ok tt,
   mkWorld (Some df2)
           (out w2 ++
            [PrintSignal (cell_of (latest df2) "Close")
                         (fst (verdict df2)) (snd (verdict df2));
             FinalReport SYMBOL (last (index df2) 0%Z) (cell_of (latest df2) "Close")
                         (fst (verdict df2)) (snd (verdict df2))])).
Proof.
  intros Hp Hcalc Hd Hn Hr.
  assert (He2 : empty df2 = false) by (apply required_nonempty; [lia|exact Hr]).
  destruct (prelude_cases provider w0) as [o [_ Hp']].
  rewrite Hp in Hp'. injection Hp' as ->.
  destruct w2 as [d2 o2]. cbn [data out] in *. subst d2.
  destruct (fetched provider) as [df|] eqn:Hf.
  - destruct (fetched_has_close _ _ Hf) as [_ [He Hc]].
    assert (Hc2 : has_label "Close" (columns df2) = true).
    { destruct (calculate_indicators_inv
                  (fun d => has_label "Close" (columns d) = true) ta df o He Hc)
        as [d [Hd [[e Hx]|Hx]]].
      - intros f d res _ _ H. apply label_ta_append_intro. left. exact H.
      - rewrite Hx in Hcalc. discriminate.
      - rewrite Hx in Hcalc. injection Hcalc as <- _.
        exact (label_rename_intro macd_renames "Close" d Hd). }
    rewrite run_trading_strategy_unfold, Hp. cbn [data no_data]. rewrite He, Hcalc.
    rewrite (generate_signal_ready df2 o2 Hn Hc2 Hr).
    unfold report, last_index, bind, get_data, print, ret, raise. cbn [data out].
    destruct (rev (index df2)) as [|t r] eqn:Hrev.
    + apply (f_equal (@length Z)) in Hrev. rewrite length_rev in Hrev.
      unfold nrows in Hn. simpl in Hrev. lia.
    + cbn [data out]. rewrite (last_of_rev _ _ _ 0%Z Hrev), <- app_assoc. reflexivity.
  - unfold calculate_indicators, bind, get_data, ret in Hcalc. cbn [data] in Hcalc.
    discriminate.
Qed.

Lemma run_reports_decision_witness :
  run_trading_strategy SpecTA.lib (Ok (ohlc [100; 101; 102]%Z)) (start None) =
  (Ok tt,
   mkWorld (Some (spec_enriched (ohlc [100; 101; 102]%Z) [100; 101; 102]))
           ([Line START_MSG; Line "Initialized TradingBot for GC=F (1h interval).";
             Line "Fetching data..."; PrintLatestClose (Num 102); Line CALC_MSG] ++
            [PrintSignal (Num 102) HOLD HOLD_REASON;
             FinalReport SYMBOL 2%Z (Num 102) HOLD HOLD_REASON])).
Proof.
  apply (run_reports_decision SpecTA.lib (Ok (ohlc [100; 101; 102]%Z)) (start None)
           (snd (prelude (Ok (ohlc [100; 101; 102]%Z)) (start None)))
           (snd (calculate_indicators SpecTA.lib
                   (snd (prelude (Ok (ohlc [100; 101; 102]%Z)) (start None)))))
           (spec_enriched (ohlc [100; 101; 102]%Z) [100; 101; 102])).
  - reflexivity.
  - reflexivity.
  - reflexivity.
  - cbv. lia.
  - reflexivity.
Defined.

(** X11. A run prints the final report at most once, as its last line,
    and only when it ends normally: if the output of a run holds a
    report, the run returned without an exception, the report is the last
    event, nothing before it is a report, and its signal comes with the
    reason string of that signal. *)
Theorem run_report_last_and_unique (ta : TALib) (provider : Result DataFrame)
    (w0 : world) :
  reported (out w0) = false ->
  reported (out (snd (run_trading_strategy ta provider w0))) = true ->
  fst (run_trading_strategy ta provider w0) = Ok tt /\
  exists (o : list event) (t : Z) (p : cell) (s : Signal) (reason : string),
    out (snd (run_trading_strategy ta provider w0)) =
    (o ++ [FinalReport SYMBOL t p s reason])%list /\
    reported o = false /\
    In (s, reason) verdicts.
Proof.
  intro Hq. rewrite run_trading_strategy_unfold.
  destruct (prelude_cases provider w0) as [o [Ho Hp]]. rewrite Hp. cbn [data].
  rewrite Hq in Ho.
  destruct (fetched provider) as [df|] eqn:Hf; cbn [no_data].
  - destruct (fetched_has_close _ _ Hf) as [_ [He _]]. rewrite He.
    destruct (calculate_indicators_inv (fun _ => True) ta df o He I)
      as [d [_ [[e Hcalc]|Hcalc]]]; [auto| |]; rewrite Hcalc.
    + cbn [snd out fst]. rewrite reported_snoc, Ho. discriminate.
    + pose proof (generate_signal_quiet
                    (mkWorld (Some (rename macd_renames d)) (o ++ [Line CALC_MSG])))
        as [Hgq Hgd].
      pose proof (generate_signal_triple
                    (mkWorld (Some (rename macd_renames d)) (o ++ [Line CALC_MSG])))
        as Hgt.
      change (Line "Calculating technical indicators...") with (Line CALC_MSG).
      destruct (generate_signal
                  (mkWorld (Some (rename macd_renames d)) (o ++ [Line CALC_MSG])))
        as [[r|e] w3].
      * cbn [fst snd data out] in Hgq, Hgd, Hgt.
        rewrite reported_snoc, Ho in Hgq. cbn [orb is_report] in Hgq.
        destruct r as [s|s p reason].
        -- rewrite report_pair. cbn [snd fst]. rewrite Hgq. discriminate.
        -- unfold report, last_index, bind, get_data, print, ret, raise.
           rewrite Hgd.
           destruct (rev (index (rename macd_renames d))) as [|t r].
           ++ cbn [snd fst]. rewrite Hgq. discriminate.
           ++ cbn [snd fst out]. intros _. split; [reflexivity|].
              exists (out w3), t, p, s, reason. repeat split.
              ** exact Hgq.
              ** exact (Hgt s p reason eq_refl).
      * cbn [fst snd data out] in Hgq. cbn [snd fst].
        rewrite Hgq, reported_snoc, Ho. discriminate.
  - unfold print. cbn [snd fst out]. rewrite reported_snoc, Ho. discriminate.
Qed.

Lemma run_report_last_and_unique_witness :
  fst (run_trading_strategy SpecTA.lib (Ok (ohlc [100; 101; 102]%Z)) (start None)) =
  Ok tt /\
  exists (o : list event) (t : Z) (p : cell) (s : Signal) (reason : string),
    out (snd (run_trading_strategy SpecTA.lib (Ok (ohlc [100; 101; 102]%Z))
                (start None))) =
    (o ++ [FinalReport SYMBOL t p s reason])%list /\
    reported o = false /\
    In (s, reason) verdicts.
Proof.
  apply (run_report_last_and_unique SpecTA.lib (Ok (ohlc [100; 101; 102]%Z))
           (start None)); reflexivity.
Defined.

(** ** generate_signal: the previous row and the exceptions *)

(** X12. An undefined previous row blocks BUY: when the MACD, MACD_S or
    RSI_14 of the previous row is NaN, as on the first bar where the
    indicator is defined, generate_signal does not answer BUY, whatever
    the latest row holds. *)
Theorem generate_signal_buy_needs_previous (df : DataFrame) (o : list event)
    (close sma200 macd macd_s rsi pmacd pmacd_s prsi : cell) :
  reads df close sma200 macd macd_s rsi pmacd pmacd_s prsi ->
  pmacd = NaN \/ pmacd_s = NaN \/ prsi = NaN ->
  signal_of (generate_signal (mkWorld (Some df) o)) <> Some BUY.
Proof.
  intros Hr Hnan. rewrite (generate_signal_reads _ o _ _ _ _ _ _ _ _ Hr).
  unfold signal_of. cbn [fst ret_signal]. rewrite decide_cases.
  assert (Hb : buy_cond close sma200 macd macd_s rsi pmacd pmacd_s prsi = false).
  { unfold buy_cond, cell_gt. destruct Hnan as [ -> | [ -> | -> ] ].
    - cbn [cell_le]. rewrite !andb_false_r. reflexivity.
    - assert (E : cell_le pmacd NaN = false) by (destruct pmacd; reflexivity).
      rewrite E, !andb_false_r. reflexivity.
    - cbn [cell_lt]. rewrite !andb_false_r. reflexivity. }
  rewrite Hb. destruct (sell_cond close sma200 macd macd_s rsi); discriminate.
Qed.

Lemma generate_signal_buy_needs_previous_witness :
  signal_of (generate_signal
               (start (Some (indicator_frame (Num 104, Num 105) (Num 100, Num 100)
                               (NaN, Num 2) (NaN, Num 1) (NaN, Num 60))))) <> Some BUY.
Proof.
  apply (generate_signal_buy_needs_previous
           (indicator_frame (Num 104, Num 105) (Num 100, Num 100)
              (NaN, Num 2) (NaN, Num 1) (NaN, Num 60)) []
           (Num 105) (Num 100) (Num 2) (Num 1) (Num 60) NaN NaN NaN).
  - constructor; [cbv; lia | reflexivity ..].
  - left. reflexivity.
Defined.

(** X13. On a frame whose column labels are distinct, generate_signal
    raises in two situations only: IndexError on a non-empty frame with a
    single bar, and KeyError('Close') on a frame with two or more bars
    that has the four required columns and no Close column.  On None or
    empty data, and on every other such frame, it returns. *)
Theorem generate_signal_exceptions (w : world) (e : exn) :
  distinct_labels (data w) ->
  fst (generate_signal w) = Raise e ->
  exists df,
    data w = Some df /\ empty df = false /\
    ((e = IndexError /\ nrows df = 1%nat) \/
     (e = KeyError "Close" /\ (2 <= nrows df)%nat /\ has_required df = true /\
      has_label "Close" (columns df) = false)).
Proof.
  intros _. destruct w as [[df|] o].
  - destruct (empty df) eqn:He.
    { rewrite generate_signal_no_data by exact He. discriminate. }
    intro H. exists df. split; [reflexivity|]. split; [exact He|].
    destruct (Nat.le_gt_cases 2 (nrows df)) as [Hn|Hn].
    + destruct (has_required df) eqn:Hr.
      * destruct (has_label "Close" (columns df)) eqn:Hc.
        -- rewrite (generate_signal_ready df o Hn Hc Hr) in H. discriminate.
        -- rewrite (generate_signal_no_close df o Hn Hr Hc) in H.
           injection H as <-. right. auto.
      * rewrite (generate_signal_absent df o Hn Hr) in H. discriminate.
    + rewrite (generate_signal_one_row df o He) in H by lia.
      injection H as <-. left. split; [reflexivity|].
      unfold empty in He. apply orb_false_iff in He. destruct He as [He _].
      apply Nat.eqb_neq in He. lia.
  - rewrite generate_signal_no_data by reflexivity. discriminate.
Qed.

Lemma generate_signal_exceptions_witness :
  exists df,
    data (start (Some no_close_frame)) = Some df /\ empty df = false /\
    ((KeyError "Close" = IndexError /\ nrows df = 1%nat) \/
     (KeyError "Close" = KeyError "Close" /\ (2 <= nrows df)%nat /\
      has_required df = true /\ has_label "Close" (columns df) = false)).
Proof.
  apply (generate_signal_exceptions (start (Some no_close_frame)) (KeyError "Close")).
  - cbv [distinct_labels start data no_close_frame columns map fst].
    repeat (constructor; [simpl; intuition discriminate|]). constructor.
  - reflexivity.
Defined.
